(** * halotools: the composite-model builder [SmHmBinarySFR] and the
    [HOD_Model_Designer] stub

    A shallow embedding of
    - [halotools/empirical_models/composite_models/sfr_models/smhm_binary_sfr.py]
    - [halotools/hod_designer.py]

    Python objects are values of [pyval]; dictionaries (the keyword options, the
    blueprint, a galaxy record) are [gmap string _]; a call that may raise is
    a computation in a state-and-exception monad whose state threads the
    world of the collaborators and the chronological log of the calls made. *)

From Stdlib Require Import ZArith String List SpecFloat.
From stdpp Require Import gmap strings list fin_maps.

Set Warnings "-register-all,-notation-for-abbreviation,-clear-no-such-hyp".

Local Open Scope string_scope.
Local Open Scope Z_scope.

(** ** Python values *)

(** The values that reach the builder: [None], booleans, arbitrary-precision
    integers, binary64 floats, strings and lists. *)
Inductive pyval : Type :=
| PyNone
| PyBool (b : bool)
| PyInt (n : Z)
| PyFloat (f : spec_float)
| PyStr (s : string)
| PyList (l : list pyval).

(** A raised exception: its class name and its argument. *)
Inductive pyexn : Type :=
| PyExn (cls : string) (arg : pyval).

Definition KeyError (k : string) : pyexn := PyExn "KeyError" (PyStr k).
Definition OverflowError : pyexn :=
  PyExn "OverflowError" (PyStr "int too large to convert to float").
Definition TypeError (msg : string) : pyexn := PyExn "TypeError" (PyStr msg).

(** A result: [inl e] is "raised [e]", [inr v] is "returned [v]". *)
Definition result (A : Type) : Type := (pyexn + A)%type.

(** ** Numbers

    A Python [float] is an IEEE binary64: 53 bits of mantissa, infinities at
    exponent 1024. *)
Module PyNum.

Definition prec : Z := 53.
Definition emax : Z := 1024.

(** The numeric tower below complex: [bool] is a subclass of [int]. *)
Inductive num : Type :=
| NInt (n : Z)
| NFloat (f : spec_float).

Definition as_num (v : pyval) : option num :=
  match v with
  | PyBool b => Some (NInt (if b then 1 else 0))
  | PyInt n => Some (NInt n)
  | PyFloat f => Some (NFloat f)
  | _ => None
  end.

Definition is_numeric (v : pyval) : bool :=
  match as_num v with Some _ => true | None => false end.

(** [float(n)]: correctly rounded, [OverflowError] past the largest float. *)
Definition int_to_float (n : Z) : result spec_float :=
  match binary_normalize prec emax n 0 false with
  | S754_infinity _ => inl OverflowError
  | f => inr f
  end.

(** Comparison of an integer with a float is exact: the integer is never
    rounded to a float first. *)
Definition Z_float_compare (n : Z) (f : spec_float) : option comparison :=
  match f with
  | S754_nan => None
  | S754_infinity s => Some (if s then Gt else Lt)
  | S754_zero _ => Some (n ?= 0)
  | S754_finite s m e =>
      let sm := cond_Zopp s (Z.pos m) in
      Some (if 0 <=? e then n ?= sm * 2 ^ e else n * 2 ^ (- e) ?= sm)
  end.

Definition compare (a b : num) : option comparison :=
  match a, b with
  | NInt x, NInt y => Some (x ?= y)
  | NFloat x, NFloat y => SFcompare x y
  | NInt x, NFloat y => Z_float_compare x y
  | NFloat x, NInt y => option_map CompOpp (Z_float_compare y x)
  end.

(** [a > b] and [a < b] on numbers; an unordered pair (a NaN) gives False. *)
Definition gtb (a b : num) : bool :=
  match compare a b with Some Gt => true | _ => false end.
Definition ltb (a b : num) : bool :=
  match compare a b with Some Lt => true | _ => false end.

(** [a + b] and [a - b]: exact on integers; a mixed pair converts the
    integer to a float first. *)
Definition arith (opZ : Z -> Z -> Z)
    (opF : spec_float -> spec_float -> spec_float) (a b : num) : result num :=
  match a, b with
  | NInt x, NInt y => inr (NInt (opZ x y))
  | NFloat x, NFloat y => inr (NFloat (opF x y))
  | NInt x, NFloat y =>
      match int_to_float x with
      | inl e => inl e
      | inr fx => inr (NFloat (opF fx y))
      end
  | NFloat x, NInt y =>
      match int_to_float y with
      | inl e => inl e
      | inr fy => inr (NFloat (opF x fy))
      end
  end.

Definition add : num -> num -> result num := arith Z.add (SFadd prec emax).
Definition sub : num -> num -> result num := arith Z.sub (SFsub prec emax).

Definition to_pyval (a : num) : pyval :=
  match a with NInt n => PyInt n | NFloat f => PyFloat f end.

End PyNum.

(** Float literals used by the source and by the examples. *)
Definition float_0_2 : spec_float := S754_finite false 7205759403792794 (-55).
Definition float_0_25 : spec_float := S754_finite false 4503599627370496 (-54).
Definition float_0_75 : spec_float := S754_finite false 6755399441055744 (-53).
(** [2.0 ** 53 = 9007199254740992.0] *)
Definition float_2p53 : spec_float := S754_finite false 4503599627370496 1.
(** [float('inf')] *)
Definition float_inf : spec_float := S754_infinity false.
(** [float('-inf')] and [float('nan')] *)
Definition float_neg_inf : spec_float := S754_infinity true.
Definition float_nan : spec_float := S754_nan.

(** ** Computations: state and exceptions *)

Definition M (S A : Type) : Type := S -> result A * S.

Definition ret {S A} (a : A) : M S A := fun s => (inr a, s).
Definition raise {S A} (e : pyexn) : M S A := fun s => (inl e, s).
Definition bind {S A B} (m : M S A) (k : A -> M S B) : M S B :=
  fun s =>
    match m s with
    | (inl e, s') => (inl e, s')
    | (inr a, s') => k a s'
    end.

Notation "'do' x <- m ; k" := (bind m (fun x => k))
  (at level 10, x name, m at level 100, k at level 200).

(** The same for code without state: a value or an exception. *)
Definition rbind {A B} (m : result A) (k : A -> result B) : result B :=
  match m with
  | inl e => inl e
  | inr a => k a
  end.

Notation "'try' x <- m ; k" := (rbind m (fun x => k))
  (at level 10, x name, m at level 100, k at level 200).

(** [d[k]] on a dictionary: [KeyError] on a missing key. *)
Definition getitem {A} (d : gmap string A) (k : string) : result A :=
  match d !! k with
  | Some v => inr v
  | None => inl (KeyError k)
  end.

(** ** smhm_binary_sfr.py *)

Section SmHmBinarySFR.

(** The collaborators are not part of these two files.  They are taken as
    parameters: [W] is whatever state their constructors may read or
    change, [component] is a constructed sub-model, which exposes its
    self-declared [galprop_name], and [composite_model] is what the factory
    returns. *)
Context {W component composite_model : Type}.
Variable galprop_name : component -> string.

(** A call [f(k1=v1, ..., kn=vn, ** kwargs)]: the keywords written at the
    call site, in order, and the dictionary unpacked after them.  Binding
    them to the parameters of [f], with what Python raises when that
    fails, is on the side of [f]. *)
Definition callable (A : Type) : Type :=
  list (string * pyval) -> gmap string pyval -> W -> result A * W.

(** A selection predicate: from a galaxy record to the value of the
    comparison. *)
Definition selection : Type := gmap string pyval -> result pyval.

Variable BinaryGalpropInterpolModel : callable component.
Variable Behroozi10SmHm : callable component.
Variable SubhaloModelFactory :
  gmap string component -> option selection -> W -> result composite_model * W.

(** [model_defaults.default_smhm_haloprop] and
    [sim_defaults.default_redshift]. *)
Variable default_smhm_haloprop : pyval.
Variable default_redshift : pyval.

(** [a > b] when an operand is not a number: Python 2 orders such pairs
    arbitrarily, Python 3 raises [TypeError]; the source runs on both. *)
Variable gt_other : pyval -> pyval -> result pyval.

(** The calls made, in the order they are made. *)
Inductive event : Type :=
| EvBinaryGalpropInterpolModel (kw : list (string * pyval)) (extra : gmap string pyval)
| EvSmhmModel (f : callable component) (kw : list (string * pyval)) (extra : gmap string pyval)
| EvSubhaloModelFactory (blueprint : gmap string component) (sel : option selection).

Record state : Type := { world : W; calls : list event }.

(** Make a call: log it, run the callee on the world. *)
Definition invoke {A} (ev : event) (f : W -> result A * W) : M state A :=
  fun s =>
    let (r, w') := f (world s) in
    (r, {| world := w'; calls := calls s ++ [ev] |}).

Definition py_gt (a b : pyval) : result pyval :=
  match PyNum.as_num a, PyNum.as_num b with
  | Some x, Some y => inr (PyBool (PyNum.gtb x y))
  | _, _ => gt_other a b
  end.

(** [lambda x: x['stellar_mass'] > kwargs['threshold']] *)
Definition galaxy_selection_func (kwargs : gmap string pyval) : selection :=
  fun x =>
    try a <- getitem x "stellar_mass";
    try t <- getitem kwargs "threshold";
    py_gt a t.

Definition SmHmBinarySFR
    (prim_haloprop_key : pyval) (smhm_model : callable component)
    (scatter_level redshift sfr_abcissa sfr_ordinates logparam : pyval)
    (kwargs : gmap string pyval) : M state composite_model :=
  do sfr_model <-
    (let kw := [("galprop_name", PyStr "quiescent");
                ("prim_haloprop_key", prim_haloprop_key);
                ("abcissa", sfr_abcissa); ("ordinates", sfr_ordinates);
                ("logparam", logparam)] in
     invoke (EvBinaryGalpropInterpolModel kw kwargs)
            (BinaryGalpropInterpolModel kw kwargs));
  do sm_model <-
    (let kw := [("prim_haloprop_key", prim_haloprop_key);
                ("redshift", redshift);
                ("scatter_abcissa", PyList [PyInt 12]);
                ("scatter_ordinates", PyList [scatter_level])] in
     invoke (EvSmhmModel smhm_model kw kwargs) (smhm_model kw kwargs));
  let blueprint : gmap string component :=
    <[galprop_name sfr_model := sfr_model]>
      (<[galprop_name sm_model := sm_model]> ∅) in
  if decide ("threshold" ∈ dom kwargs) then
    let sel := galaxy_selection_func kwargs in
    do model <- invoke (EvSubhaloModelFactory blueprint (Some sel))
                       (SubhaloModelFactory blueprint (Some sel));
    ret model
  else
    do model <- invoke (EvSubhaloModelFactory blueprint None)
                       (SubhaloModelFactory blueprint None);
    ret model.

(** The call that leaves every named parameter at its default and gives
    only extra keyword options. *)
Definition SmHmBinarySFR_defaults (kwargs : gmap string pyval)
    : M state composite_model :=
  SmHmBinarySFR default_smhm_haloprop Behroozi10SmHm
    (PyFloat float_0_2) default_redshift
    (PyList [PyInt 12; PyInt 15])
    (PyList [PyFloat float_0_25; PyFloat float_0_75])
    (PyBool true) kwargs.

(** The invocations of a stellar-mass constructor in a log. *)
Fixpoint smhm_invocations (tr : list event)
    : list (callable component * list (string * pyval) * gmap string pyval) :=
  match tr with
  | [] => []
  | EvSmhmModel f kw extra :: tr' => (f, kw, extra) :: smhm_invocations tr'
  | _ :: tr' => smhm_invocations tr'
  end.

End SmHmBinarySFR.

(** ** The call protocol *)

(** Binding the keywords of a call [f(k1=v1, ..., kn=vn, ** extra)].  Before
    [f] is entered, the written keywords and the unpacked dictionary are
    merged into one keyword dictionary, and a key of the dictionary that
    repeats a written keyword is a [TypeError] (whose message names [f] and
    the keyword). *)
Definition keywords_clash (kw : list (string * pyval))
    (extra : gmap string pyval) : bool :=
  existsb (fun kv => bool_decide (is_Some (extra !! kv.1))) kw.

Definition bind_keywords (kw : list (string * pyval))
    (extra : gmap string pyval) : result (gmap string pyval) :=
  if keywords_clash kw extra
  then inl (TypeError "got multiple values for keyword argument")
  else inr (list_to_map kw ∪ extra).

(** A Python callable as a call site sees it: the keywords are bound, and
    the body is entered, with the keyword dictionary, only when that
    succeeded.  What the body makes of the dictionary (its own parameters,
    what it rejects) is the body's. *)
Definition py_call {W A} (body : gmap string pyval -> W -> result A * W)
    : @callable W A :=
  fun kw extra w =>
    match bind_keywords kw extra with
    | inl e => (inl e, w)
    | inr d => body d w
    end.

(** ** hod_designer.py *)

Module hod_designer.

(** What a call can be given: a reference to an instance, or a plain
    value. *)
Inductive value : Type :=
| Ref (l : nat)
| Val (v : pyval).

(** The object store: the attribute dictionary of every live instance. *)
Definition heap : Type := gmap nat (gmap string value).

(** Binding the arguments of a call to the parameters
    [(self, *args, **kwargs)]: [self] is the first positional argument, or,
    when there is no positional argument, the named argument of that name;
    the other positional arguments go to [args] and the other named ones to
    [kwargs].  A [self] given twice, or not at all, is a [TypeError]. *)
Definition bind_parameters (positional : list value)
    (named : gmap string value)
    : result (value * list value * gmap string value) :=
  match positional, named !! "self" with
  | self :: args, None => inr (self, args, named)
  | [], Some self => inr (self, [], delete "self" named)
  | _ :: _, Some _ =>
      inl (TypeError "__init__() got multiple values for argument 'self'")
  | [], None =>
      inl (TypeError "__init__() missing 1 required positional argument: 'self'")
  end.

(** [def __init__(self, *args, **kwargs): pass], called with the given
    positional and named arguments. *)
Definition __init__ (positional : list value) (named : gmap string value)
    : M heap value :=
  match bind_parameters positional named with
  | inl e => raise e
  | inr (self, args, kwargs) => ret (Val PyNone)
  end.

(** Instantiating the class with the given arguments: a new object with no
    attributes is allocated, [__init__] is called with the object before the
    positional arguments, and the object is returned.  When [__init__]
    raises (or returns something else than [None], a [TypeError]) the
    object, which nothing refers to, is gone with the call. *)
Definition HOD_Model_Designer (args : list value)
    (kwargs : gmap string value) : M heap nat :=
  fun h =>
    let self := fresh (dom h) in
    match __init__ (Ref self :: args) kwargs (<[self := ∅]> h) with
    | (inr (Val PyNone), h') => (inr self, h')
    | (inr _, h') =>
        (inl (TypeError "__init__() should return None"), delete self h')
    | (inl e, h') => (inl e, delete self h')
    end.

End hod_designer.

(** ** A concrete set of collaborators

    Small stand-ins for the collaborators, on which the builder can be run:
    the world counts the objects constructed so far, a sub-model remembers
    the name it declares and the keywords it was built from, and the
    composite model remembers what the factory was given. *)

Module Mock.

Record component : Type :=
  { galprop_name : string;
    built_from : list (string * pyval);
    built_extra : gmap string pyval }.

Record composite_model : Type :=
  { blueprint : gmap string component;
    galaxy_selection : option (gmap string pyval -> result pyval) }.

Fixpoint keyword (k : string) (kw : list (string * pyval)) : option pyval :=
  match kw with
  | [] => None
  | (k', v) :: kw' => if String.eqb k k' then Some v else keyword k kw'
  end.

(** Declares the name it is given; rejects control points whose abcissa and
    ordinates differ in length. *)
Definition BinaryGalpropInterpolModel (kw : list (string * pyval))
    (extra : gmap string pyval) (w : nat) : result component * nat :=
  match keyword "galprop_name" kw, keyword "abcissa" kw, keyword "ordinates" kw with
  | Some (PyStr n), Some (PyList a), Some (PyList o) =>
      if Nat.eqb (length a) (length o)
      then (inr {| galprop_name := n; built_from := kw; built_extra := extra |}, S w)
      else (inl (PyExn "ValueError" (PyStr "abcissa and ordinates differ in length")), w)
  | _, _, _ => (inl (PyExn "TypeError" (PyStr "missing keyword")), w)
  end.

(** A stellar-mass model declaring the name [n]. *)
Definition smhm (n : string) (kw : list (string * pyval))
    (extra : gmap string pyval) (w : nat) : result component * nat :=
  (inr {| galprop_name := n; built_from := kw; built_extra := extra |}, S w).

Definition Behroozi10SmHm := smhm "stellar_mass".

(** A stellar-mass model that rejects every configuration. *)
Definition smhm_rejecting (kw : list (string * pyval))
    (extra : gmap string pyval) (w : nat) : result component * nat :=
  (inl (PyExn "ValueError" (PyStr "redshift out of range")), w).

(** Rejects a selection predicate when the blueprint has no model for the
    stellar mass it is going to read. *)
Definition SubhaloModelFactory (bp : gmap string component)
    (sel : option (gmap string pyval -> result pyval)) (w : nat)
    : result composite_model * nat :=
  match sel, bp !! "stellar_mass" with
  | Some _, None => (inl (KeyError "stellar_mass"), w)
  | _, _ => (inr {| blueprint := bp; galaxy_selection := sel |}, S w)
  end.

Definition default_smhm_haloprop : pyval := PyStr "halo_mvir".
Definition default_redshift : pyval := PyFloat (S754_zero false).

(** Python 3: ordering a number against a non-number is a [TypeError]. *)
Definition gt_other (a b : pyval) : result pyval :=
  inl (PyExn "TypeError" (PyStr "'>' not supported between these instances")).

Definition start : @state nat component :=
  {| world := 0%nat; calls := [] |}.

(** The builder over these collaborators. *)
Definition SmHmBinarySFR :=
  @SmHmBinarySFR nat component composite_model galprop_name
    BinaryGalpropInterpolModel SubhaloModelFactory gt_other.

Definition SmHmBinarySFR_defaults :=
  @SmHmBinarySFR_defaults nat component composite_model galprop_name
    BinaryGalpropInterpolModel Behroozi10SmHm SubhaloModelFactory
    default_smhm_haloprop default_redshift gt_other.

(** The selection predicate of these collaborators. *)
Definition galaxy_selection_func := galaxy_selection_func gt_other.

Definition default_abcissa : pyval := PyList [PyInt 12; PyInt 15].
Definition default_ordinates : pyval :=
  PyList [PyFloat float_0_25; PyFloat float_0_75].

(** The builder with every named parameter at its default but the
    stellar-mass model and the SFR ordinates. *)
Definition build (smhm_model : list (string * pyval) -> gmap string pyval ->
                               nat -> result component * nat)
    (sfr_ordinates : pyval) (kwargs : gmap string pyval) :=
  SmHmBinarySFR default_smhm_haloprop smhm_model (PyFloat float_0_2)
    default_redshift default_abcissa sfr_ordinates (PyBool true) kwargs.

(** The keywords of the two construction calls in such a build, and the
    sub-models they produce. *)
Definition sfr_kw (sfr_ordinates : pyval) : list (string * pyval) :=
  [("galprop_name", PyStr "quiescent");
   ("prim_haloprop_key", default_smhm_haloprop);
   ("abcissa", default_abcissa); ("ordinates", sfr_ordinates);
   ("logparam", PyBool true)].
Definition smhm_kw : list (string * pyval) :=
  [("prim_haloprop_key", default_smhm_haloprop);
   ("redshift", default_redshift);
   ("scatter_abcissa", PyList [PyInt 12]);
   ("scatter_ordinates", PyList [PyFloat float_0_2])].
Definition sfr_component (kwargs : gmap string pyval) : component :=
  {| galprop_name := "quiescent"; built_from := sfr_kw default_ordinates;
     built_extra := kwargs |}.
Definition sm_component (n : string) (kwargs : gmap string pyval) : component :=
  {| galprop_name := n; built_from := smhm_kw; built_extra := kwargs |}.

End Mock.

(** The same with constructors given by their bodies, which are entered
    with the keyword dictionary of the call.  Here the world counts the
    bodies entered, also those that raise. *)
Module MockBodies.

Definition sfr_body (d : gmap string pyval) (w : nat)
    : result Mock.component * nat :=
  match d !! "galprop_name", d !! "abcissa", d !! "ordinates" with
  | Some (PyStr n), Some (PyList a), Some (PyList o) =>
      if Nat.eqb (length a) (length o)
      then (inr {| Mock.galprop_name := n; Mock.built_from := [];
                   Mock.built_extra := d |}, S w)
      else (inl (PyExn "ValueError"
                   (PyStr "abcissa and ordinates differ in length")), S w)
  | _, _, _ => (inl (TypeError "missing keyword"), S w)
  end.

Definition smhm_body (n : string) (d : gmap string pyval) (w : nat)
    : result Mock.component * nat :=
  (inr {| Mock.galprop_name := n; Mock.built_from := [];
          Mock.built_extra := d |}, S w).

(** The builder over these bodies, every named parameter at its default
    but the stellar-mass model, which declares "stellar_mass", and the SFR
    ordinates. *)
Definition build (sfr_ordinates : pyval) (kwargs : gmap string pyval) :=
  @SmHmBinarySFR nat Mock.component Mock.composite_model Mock.galprop_name
    (py_call sfr_body) Mock.SubhaloModelFactory Mock.gt_other
    Mock.default_smhm_haloprop (py_call (smhm_body "stellar_mass"))
    (PyFloat float_0_2) Mock.default_redshift Mock.default_abcissa
    sfr_ordinates (PyBool true) kwargs.

End MockBodies.

(** * Properties *)

(** ** The order on numbers *)

Lemma SFcompare_antisym (x y : spec_float) :
  SFcompare y x = option_map CompOpp (SFcompare x y).
Proof.
  destruct x as [sx|sx| |sx mx ex], y as [sy|sy| |sy my ey]; simpl;
    try reflexivity;
    try (destruct sx; reflexivity); try (destruct sy; reflexivity);
    try (destruct sx, sy; reflexivity).
  f_equal.
  destruct sx, sy; simpl; try reflexivity;
    rewrite (Z.compare_antisym ey ex);
    destruct (ey ?= ex); simpl; try reflexivity;
    pose proof (Pos.compare_cont_antisym mx my Eq) as H; simpl in H;
    rewrite <- H; destruct (Pos.compare_cont Eq mx my); reflexivity.
Qed.

Lemma PyNum_compare_antisym (a b : PyNum.num) :
  PyNum.compare b a = option_map CompOpp (PyNum.compare a b).
Proof.
  destruct a as [x|x], b as [y|y]; simpl.
  - now rewrite (Z.compare_antisym x y).
  - reflexivity.
  - destruct (PyNum.Z_float_compare y x) as [c|]; simpl; [|reflexivity].
    now destruct c.
  - apply SFcompare_antisym.
Qed.

(** [>] is strict: no number is above itself. *)
Lemma PyNum_gtb_irrefl (a : PyNum.num) : PyNum.gtb a a = false.
Proof.
  unfold PyNum.gtb.
  pose proof (PyNum_compare_antisym a a) as H.
  destruct (PyNum.compare a a) as [[]|]; simpl in H; congruence.
Qed.

Lemma PyNum_ltb_not_gtb (a b : PyNum.num) :
  PyNum.ltb a b = true -> PyNum.gtb a b = false.
Proof.
  unfold PyNum.ltb, PyNum.gtb.
  destruct (PyNum.compare a b) as [[]|]; congruence.
Qed.

Lemma PyNum_ltb_gtb (a b : PyNum.num) :
  PyNum.ltb a b = true -> PyNum.gtb b a = true.
Proof.
  unfold PyNum.ltb, PyNum.gtb.
  rewrite (PyNum_compare_antisym a b).
  destruct (PyNum.compare a b) as [[]|]; simpl; congruence.
Qed.

Lemma PyNum_int_pred_ltb (k : Z) :
  PyNum.sub (PyNum.NInt k) (PyNum.NInt 1) = inr (PyNum.NInt (k - 1)) /\
  PyNum.ltb (PyNum.NInt (k - 1)) (PyNum.NInt k) = true.
Proof.
  split; [reflexivity|].
  unfold PyNum.ltb; simpl.
  now rewrite (proj2 (Z.compare_lt_iff (k - 1) k)) by lia.
Qed.

Lemma PyNum_int_succ_ltb (k : Z) :
  PyNum.add (PyNum.NInt k) (PyNum.NInt 1) = inr (PyNum.NInt (k + 1)) /\
  PyNum.ltb (PyNum.NInt k) (PyNum.NInt (k + 1)) = true.
Proof.
  split; [reflexivity|].
  unfold PyNum.ltb; simpl.
  now rewrite (proj2 (Z.compare_lt_iff k (k + 1))) by lia.
Qed.

(** ** The builder *)

Section SmHmBinarySFR_properties.

Context {W component composite_model : Type}.
Variable galprop_name : component -> string.
Variable BinaryGalpropInterpolModel : @callable W component.
Variable SubhaloModelFactory :
  gmap string component -> option selection -> W -> result composite_model * W.
Variable gt_other : pyval -> pyval -> result pyval.

(** One call of the builder, fixed throughout. *)
Variable prim_haloprop_key : pyval.
Variable smhm_model : @callable W component.
Variables scatter_level redshift sfr_abcissa sfr_ordinates logparam : pyval.
Variable kwargs : gmap string pyval.

Local Notation build :=
  (SmHmBinarySFR galprop_name BinaryGalpropInterpolModel SubhaloModelFactory
     gt_other prim_haloprop_key smhm_model scatter_level redshift
     sfr_abcissa sfr_ordinates logparam kwargs).

(** The keywords written at the two construction sites. *)
Local Notation sfr_kw :=
  [("galprop_name", PyStr "quiescent");
   ("prim_haloprop_key", prim_haloprop_key);
   ("abcissa", sfr_abcissa); ("ordinates", sfr_ordinates);
   ("logparam", logparam)].
Local Notation smhm_kw :=
  [("prim_haloprop_key", prim_haloprop_key); ("redshift", redshift);
   ("scatter_abcissa", PyList [PyInt 12]);
   ("scatter_ordinates", PyList [scatter_level])].
Local Notation sfr_call := (EvBinaryGalpropInterpolModel sfr_kw kwargs).
Local Notation smhm_call := (EvSmhmModel smhm_model smhm_kw kwargs).
Local Notation factory_call bp sel :=
  (invoke (EvSubhaloModelFactory bp sel) (SubhaloModelFactory bp sel)).
Local Notation selection_func := (galaxy_selection_func gt_other kwargs).
(** The dictionary display [{sm_model.galprop_name: sm_model,
    sfr_model.galprop_name: sfr_model}] and the predicate handed over. *)
Local Notation blueprint_of sm sfr :=
  (<[galprop_name sfr := sfr]>
     (<[galprop_name sm := sm]> (∅ : gmap string component))).
Local Notation predicate_option :=
  (if decide ("threshold" ∈ dom kwargs) then Some selection_func else None).

Lemma bind_invoke_ret {A} (ev : @event W component) (f : W -> result A * W)
    (s : state) :
  (do x <- invoke ev f; ret x) s = invoke ev f s.
Proof.
  unfold bind, invoke, ret. destruct (f (world s)) as [[e|a] w']; reflexivity.
Qed.

(** The SFR constructor raises: the build stops there. *)
Lemma build_sfr_raises s e w1 :
  BinaryGalpropInterpolModel sfr_kw kwargs (world s) = (inl e, w1) ->
  build s = (inl e, {| world := w1; calls := calls s ++ [sfr_call] |}).
Proof.
  intros Hsfr. unfold SmHmBinarySFR, bind at 1, invoke at 1.
  now rewrite Hsfr.
Qed.

(** The stellar-mass constructor raises: the build stops there. *)
Lemma build_smhm_raises s sfr w1 e w2 :
  BinaryGalpropInterpolModel sfr_kw kwargs (world s) = (inr sfr, w1) ->
  smhm_model smhm_kw kwargs w1 = (inl e, w2) ->
  build s = (inl e, {| world := w2; calls := calls s ++ [sfr_call; smhm_call] |}).
Proof.
  intros Hsfr Hsm. unfold SmHmBinarySFR, bind at 1, invoke at 1.
  rewrite Hsfr. unfold bind at 1, invoke at 1. simpl.
  rewrite Hsm. now rewrite <- app_assoc.
Qed.

(** Both sub-models are built: the factory is called on the blueprint, and
    what it does is what the builder does. *)
Lemma build_assembles s sfr w1 sm w2 :
  BinaryGalpropInterpolModel sfr_kw kwargs (world s) = (inr sfr, w1) ->
  smhm_model smhm_kw kwargs w1 = (inr sm, w2) ->
  build s =
    factory_call
      (<[galprop_name sfr := sfr]> (<[galprop_name sm := sm]> ∅))
      (if decide ("threshold" ∈ dom kwargs) then Some selection_func else None)
      {| world := w2; calls := calls s ++ [sfr_call; smhm_call] |}.
Proof.
  intros Hsfr Hsm. unfold SmHmBinarySFR, bind at 1, invoke at 1.
  rewrite Hsfr. unfold bind at 1, invoke at 1. simpl.
  rewrite Hsm. rewrite <- app_assoc. simpl.
  destruct (decide ("threshold" ∈ dom kwargs)); apply bind_invoke_ret.
Qed.

Lemma threshold_present T :
  kwargs !! "threshold" = Some T ->
  (if decide ("threshold" ∈ dom kwargs) then Some selection_func else None)
  = Some selection_func.
Proof.
  intros H. destruct (decide ("threshold" ∈ dom kwargs)) as [|Hn]; [reflexivity|].
  exfalso. apply Hn, elem_of_dom. eauto.
Qed.

Lemma threshold_absent :
  kwargs !! "threshold" = None ->
  (if decide ("threshold" ∈ dom kwargs) then Some selection_func else None)
  = None.
Proof.
  intros H. destruct (decide ("threshold" ∈ dom kwargs)) as [Hin|]; [|reflexivity].
  apply elem_of_dom in Hin. destruct Hin as [v Hv]. congruence.
Qed.

(** What the predicate computes on a record. *)
Lemma selection_func_eval T (x : gmap string pyval) v :
  kwargs !! "threshold" = Some T ->
  x !! "stellar_mass" = Some v ->
  selection_func x = py_gt gt_other v T.
Proof.
  intros HT Hx. unfold galaxy_selection_func, getitem. now rewrite Hx, HT.
Qed.

Lemma selection_func_missing (x : gmap string pyval) :
  x !! "stellar_mass" = None ->
  selection_func x = inl (KeyError "stellar_mass").
Proof.
  intros Hx. unfold galaxy_selection_func, getitem. now rewrite Hx.
Qed.

(** C1: in a valid configuration whose two sub-models declare distinct
    property names, the factory is called on a blueprint of exactly two
    entries, the stellar-mass sub-model under the name it declares and the
    SFR sub-model under the name it declares, and the composite model the
    factory returns is what the builder returns; the two keys are
    "stellar_mass" and "quiescent" when these are the declared names. *)
Theorem C1_blueprint_two_entries s sfr w1 sm w2 :
  BinaryGalpropInterpolModel sfr_kw kwargs (world s) = (inr sfr, w1) ->
  smhm_model smhm_kw kwargs w1 = (inr sm, w2) ->
  galprop_name sm ≠ galprop_name sfr ->
  ∃ bp sel,
    size bp = 2%nat ∧
    dom bp = {[galprop_name sm; galprop_name sfr]} ∧
    bp !! galprop_name sm = Some sm ∧
    bp !! galprop_name sfr = Some sfr ∧
    build s = factory_call bp sel
                {| world := w2; calls := calls s ++ [sfr_call; smhm_call] |} ∧
    (∀ c w3, SubhaloModelFactory bp sel w2 = (inr c, w3) ->
       build s = (inr c, {| world := w3;
                            calls := calls s ++ [sfr_call; smhm_call;
                                                 EvSubhaloModelFactory bp sel] |})) ∧
    (galprop_name sm = "stellar_mass" -> galprop_name sfr = "quiescent" ->
       dom bp = {["stellar_mass"; "quiescent"]}).
Proof.
  intros Hsfr Hsm Hne.
  eexists _, _. repeat split.
  6: { intros c w3 Hf. rewrite (build_assembles _ _ _ _ _ Hsfr Hsm).
       unfold invoke. simpl. rewrite Hf. now rewrite <- app_assoc. }
  5: apply (build_assembles _ _ _ _ _ Hsfr Hsm).
  - rewrite map_size_insert_None.
    + now rewrite map_size_insert_None.
    + rewrite lookup_insert_ne by done. apply lookup_empty.
  - rewrite !dom_insert_L. set_solver.
  - rewrite lookup_insert_ne by done. apply lookup_insert_eq.
  - apply lookup_insert_eq.
  - intros Hn1 Hn2. rewrite !dom_insert_L, Hn1, Hn2. set_solver.
Qed.

(** C2 (amended): with a numeric [threshold=T] the factory receives the
    predicate "stellar_mass > T": on a numeric stellar mass it returns the
    strict comparison, so a record with stellar mass exactly T is rejected;
    it rejects T - 1 whenever T - 1 < T and accepts T + 1 whenever
    T < T + 1 in Python's arithmetic, which is so for every integer T. *)
Theorem C2_threshold_predicate_strict s sfr w1 sm w2 T t :
  kwargs !! "threshold" = Some T ->
  PyNum.as_num T = Some t ->
  BinaryGalpropInterpolModel sfr_kw kwargs (world s) = (inr sfr, w1) ->
  smhm_model smhm_kw kwargs w1 = (inr sm, w2) ->
  ∃ bp,
    build s = factory_call bp (Some selection_func)
                {| world := w2; calls := calls s ++ [sfr_call; smhm_call] |} ∧
    (∀ (x : gmap string pyval) v n,
       x !! "stellar_mass" = Some v -> PyNum.as_num v = Some n ->
       selection_func x = inr (PyBool (PyNum.gtb n t))) ∧
    (∀ x : gmap string pyval,
       x !! "stellar_mass" = Some T -> selection_func x = inr (PyBool false)) ∧
    (∀ (x : gmap string pyval) lo,
       PyNum.sub t (PyNum.NInt 1) = inr lo -> PyNum.ltb lo t = true ->
       x !! "stellar_mass" = Some (PyNum.to_pyval lo) ->
       selection_func x = inr (PyBool false)) ∧
    (∀ (x : gmap string pyval) hi,
       PyNum.add t (PyNum.NInt 1) = inr hi -> PyNum.ltb t hi = true ->
       x !! "stellar_mass" = Some (PyNum.to_pyval hi) ->
       selection_func x = inr (PyBool true)) ∧
    (∀ (x : gmap string pyval) k, t = PyNum.NInt k ->
       (x !! "stellar_mass" = Some (PyInt (k - 1)) ->
        selection_func x = inr (PyBool false)) ∧
       (x !! "stellar_mass" = Some (PyInt (k + 1)) ->
        selection_func x = inr (PyBool true))).
Proof.
  intros HT Ht Hsfr Hsm.
  assert (Hnum : ∀ (x : gmap string pyval) v n,
             x !! "stellar_mass" = Some v -> PyNum.as_num v = Some n ->
             selection_func x = inr (PyBool (PyNum.gtb n t))).
  { intros x v n Hx Hv. rewrite (selection_func_eval T x v HT Hx).
    unfold py_gt. now rewrite Hv, Ht. }
  assert (Hpy : ∀ n, PyNum.as_num (PyNum.to_pyval n) = Some n)
    by (intros []; reflexivity).
  eexists. split; [|repeat split].
  - rewrite (build_assembles _ _ _ _ _ Hsfr Hsm).
    now rewrite (threshold_present T HT).
  - exact Hnum.
  - intros x Hx. rewrite (Hnum x T t Hx Ht). now rewrite PyNum_gtb_irrefl.
  - intros x lo _ Hlt Hx. rewrite (Hnum x _ lo Hx (Hpy lo)).
    now rewrite (PyNum_ltb_not_gtb _ _ Hlt).
  - intros x hi _ Hlt Hx. rewrite (Hnum x _ hi Hx (Hpy hi)).
    now rewrite (PyNum_ltb_gtb _ _ Hlt).
  - intros Hx. subst t. rewrite (Hnum x _ (PyNum.NInt (k - 1)) Hx eq_refl).
    now rewrite (PyNum_ltb_not_gtb _ _ (proj2 (PyNum_int_pred_ltb k))).
  - intros Hx. subst t. rewrite (Hnum x _ (PyNum.NInt (k + 1)) Hx eq_refl).
    now rewrite (PyNum_ltb_gtb _ _ (proj2 (PyNum_int_succ_ltb k))).
Qed.


(** C3: when ['threshold'] is not among the keyword options, the composite
    model is constructed from the blueprint alone: the factory is called on
    the dictionary of the two sub-models, each under the name it declares,
    without a selection predicate; what the factory returns is what the
    builder returns; and no call of the builder to the factory carries a
    predicate. *)
Theorem C3_no_threshold_no_predicate s :
  kwargs !! "threshold" = None ->
  (∀ sfr w1 sm w2,
     BinaryGalpropInterpolModel sfr_kw kwargs (world s) = (inr sfr, w1) ->
     smhm_model smhm_kw kwargs w1 = (inr sm, w2) ->
     build s = factory_call (blueprint_of sm sfr) None
                 {| world := w2; calls := calls s ++ [sfr_call; smhm_call] |} ∧
     blueprint_of sm sfr !! galprop_name sfr = Some sfr ∧
     dom (blueprint_of sm sfr) = {[galprop_name sm; galprop_name sfr]} ∧
     (galprop_name sm ≠ galprop_name sfr ->
      blueprint_of sm sfr !! galprop_name sm = Some sm) ∧
     (∀ r w3,
        SubhaloModelFactory (blueprint_of sm sfr) None w2 = (r, w3) ->
        build s = (r, {| world := w3;
                         calls := calls s ++
                           [sfr_call; smhm_call;
                            EvSubhaloModelFactory (blueprint_of sm sfr) None] |}))) ∧
  (∀ bp sel, In (EvSubhaloModelFactory bp sel) (calls (snd (build s))) ->
     In (EvSubhaloModelFactory bp sel) (calls s) ∨ sel = None).
Proof.
  intros HT. split.
  - intros sfr w1 sm w2 Hsfr Hsm.
    assert (Hrun : build s = factory_call (blueprint_of sm sfr) None
                     {| world := w2;
                        calls := calls s ++ [sfr_call; smhm_call] |}).
    { rewrite (build_assembles _ _ _ _ _ Hsfr Hsm).
      now rewrite (threshold_absent HT). }
    split; [exact Hrun|]. split; [apply lookup_insert_eq|].
    split; [rewrite !dom_insert_L; set_solver|]. split.
    + intros Hne. rewrite lookup_insert_ne by done. apply lookup_insert_eq.
    + intros r w3 Hf. rewrite Hrun. unfold invoke. simpl. rewrite Hf.
      now rewrite <- app_assoc.
  - intros bp sel.
    destruct (BinaryGalpropInterpolModel sfr_kw kwargs (world s))
      as [[e|sfr] w1] eqn:Hsfr.
    { rewrite (build_sfr_raises _ _ _ Hsfr). simpl. intros Hin.
      apply in_app_or in Hin. destruct Hin as [Hin|[Hin|[]]];
        [now left | discriminate]. }
    destruct (smhm_model smhm_kw kwargs w1) as [[e|sm] w2] eqn:Hsm.
    { rewrite (build_smhm_raises _ _ _ _ _ Hsfr Hsm). simpl. intros Hin.
      apply in_app_or in Hin. destruct Hin as [Hin|[Hin|[Hin|[]]]];
        [now left | discriminate | discriminate]. }
    rewrite (build_assembles _ _ _ _ _ Hsfr Hsm), (threshold_absent HT).
    unfold invoke. simpl.
    destruct (SubhaloModelFactory _ None w2) as [r w3]. simpl. intros Hin.
    apply in_app_or in Hin. destruct Hin as [Hin|[Hin|[]]].
    + apply in_app_or in Hin. destruct Hin as [Hin|[Hin|[Hin|[]]]];
        [now left | discriminate | discriminate].
    + right. congruence.
Qed.

(** C4: the predicate is attached as soon as the key ['threshold'] is among
    the keyword options, whatever its value; with [threshold=None] the
    predicate attached compares the stellar mass of the record against
    [None]. *)
Theorem C4_predicate_attached_on_key_presence s sfr w1 sm w2 v :
  kwargs !! "threshold" = Some v ->
  BinaryGalpropInterpolModel sfr_kw kwargs (world s) = (inr sfr, w1) ->
  smhm_model smhm_kw kwargs w1 = (inr sm, w2) ->
  ∃ bp,
    build s = factory_call bp (Some selection_func)
                {| world := w2; calls := calls s ++ [sfr_call; smhm_call] |} ∧
    (∀ (x : gmap string pyval) a, x !! "stellar_mass" = Some a ->
       selection_func x = py_gt gt_other a v) ∧
    (v = PyNone ->
     ∀ (x : gmap string pyval) a, x !! "stellar_mass" = Some a ->
       selection_func x = gt_other a PyNone).
Proof.
  intros HT Hsfr Hsm. eexists. split; [|split].
  - rewrite (build_assembles _ _ _ _ _ Hsfr Hsm).
    now rewrite (threshold_present v HT).
  - intros x a Hx. exact (selection_func_eval v x a HT Hx).
  - intros -> x a Hx. rewrite (selection_func_eval PyNone x a HT Hx).
    unfold py_gt. now destruct (PyNum.as_num a).
Qed.

(** C5 (amended): when the two sub-models declare the same property name,
    the blueprint has exactly one entry, under that name, and it holds the
    SFR sub-model: the dictionary display lists the stellar-mass sub-model
    first and the SFR sub-model second, so the SFR sub-model, constructed
    first, silently replaces the stellar-mass sub-model, constructed
    second. *)
Theorem C5_same_name_keeps_sfr_model s sfr w1 sm w2 :
  BinaryGalpropInterpolModel sfr_kw kwargs (world s) = (inr sfr, w1) ->
  smhm_model smhm_kw kwargs w1 = (inr sm, w2) ->
  galprop_name sm = galprop_name sfr ->
  ∃ bp sel,
    build s = factory_call bp sel
                {| world := w2; calls := calls s ++ [sfr_call; smhm_call] |} ∧
    size bp = 1%nat ∧
    dom bp = {[galprop_name sfr]} ∧
    bp = {[galprop_name sfr := sfr]} ∧
    (∀ k m, bp !! k = Some m -> k = galprop_name sfr ∧ m = sfr).
Proof.
  intros Hsfr Hsm Heq.
  assert (Hbp : <[galprop_name sfr := sfr]>
                  (<[galprop_name sm := sm]> (∅ : gmap string component))
                = {[galprop_name sfr := sfr]}).
  { rewrite Heq. now rewrite insert_insert_eq. }
  eexists _, _. split; [apply (build_assembles _ _ _ _ _ Hsfr Hsm)|].
  rewrite Hbp. split; [|split; [|split]].
  - apply map_size_singleton.
  - apply dom_singleton_L.
  - reflexivity.
  - intros k m Hk. apply lookup_singleton_Some in Hk.
    destruct Hk as [<- <-]. now split.
Qed.



(** C8: an error raised by the SFR constructor, by the stellar-mass
    constructor or by the factory is the error the builder raises, unchanged;
    nothing is called after the call that raised, and the world is left as
    that call left it; and every error the builder raises is one of these:
    the builder adds no check, no handler and no effect of its own. *)
Theorem C8_errors_propagate_unchanged s e :
  (∀ w1,
     BinaryGalpropInterpolModel sfr_kw kwargs (world s) = (inl e, w1) ->
     build s = (inl e, {| world := w1; calls := calls s ++ [sfr_call] |})) ∧
  (∀ sfr w1 w2,
     BinaryGalpropInterpolModel sfr_kw kwargs (world s) = (inr sfr, w1) ->
     smhm_model smhm_kw kwargs w1 = (inl e, w2) ->
     build s = (inl e, {| world := w2;
                          calls := calls s ++ [sfr_call; smhm_call] |})) ∧
  (∀ sfr w1 sm w2 w3,
     BinaryGalpropInterpolModel sfr_kw kwargs (world s) = (inr sfr, w1) ->
     smhm_model smhm_kw kwargs w1 = (inr sm, w2) ->
     SubhaloModelFactory (blueprint_of sm sfr) predicate_option w2 = (inl e, w3) ->
     build s = (inl e, {| world := w3;
                          calls := calls s ++
                            [sfr_call; smhm_call;
                             EvSubhaloModelFactory (blueprint_of sm sfr)
                               predicate_option] |})) ∧
  (fst (build s) = inl e ->
     (∃ w1, BinaryGalpropInterpolModel sfr_kw kwargs (world s) = (inl e, w1)) ∨
     (∃ sfr w1 w2,
        BinaryGalpropInterpolModel sfr_kw kwargs (world s) = (inr sfr, w1) ∧
        smhm_model smhm_kw kwargs w1 = (inl e, w2)) ∨
     (∃ sfr w1 sm w2 w3,
        BinaryGalpropInterpolModel sfr_kw kwargs (world s) = (inr sfr, w1) ∧
        smhm_model smhm_kw kwargs w1 = (inr sm, w2) ∧
        SubhaloModelFactory (blueprint_of sm sfr) predicate_option w2
          = (inl e, w3))).
Proof.
  split; [|split; [|split]].
  - intros w1 Hsfr. exact (build_sfr_raises _ _ _ Hsfr).
  - intros sfr w1 w2 Hsfr Hsm. exact (build_smhm_raises _ _ _ _ _ Hsfr Hsm).
  - intros sfr w1 sm w2 w3 Hsfr Hsm Hf.
    rewrite (build_assembles _ _ _ _ _ Hsfr Hsm).
    unfold invoke. simpl. rewrite Hf. now rewrite <- app_assoc.
  - destruct (BinaryGalpropInterpolModel sfr_kw kwargs (world s))
      as [[e1|sfr] w1] eqn:Hsfr.
    { rewrite (build_sfr_raises _ _ _ Hsfr). simpl. intros [= ->].
      left. now exists w1. }
    destruct (smhm_model smhm_kw kwargs w1) as [[e2|sm] w2] eqn:Hsm.
    { rewrite (build_smhm_raises _ _ _ _ _ Hsfr Hsm). simpl. intros [= ->].
      right. left. now exists sfr, w1, w2. }
    rewrite (build_assembles _ _ _ _ _ Hsfr Hsm). unfold invoke. simpl.
    destruct (SubhaloModelFactory (blueprint_of sm sfr) predicate_option w2)
      as [[e3|c] w3] eqn:Hf; simpl; intros [= ->].
    right. right. now exists sfr, w1, sm, w2, w3.
Qed.

(** C9: when a threshold is attached, the predicate reads the record under
    the fixed key "stellar_mass" and under no other; when the stellar-mass
    sub-model declares another name, the blueprint files it under that name,
    a record that carries the property under the declared name only makes
    the predicate raise [KeyError], and unless the SFR sub-model declares
    "stellar_mass" the blueprint has no entry under the key the predicate
    reads. *)
Theorem C9_predicate_key_is_fixed s sfr w1 sm w2 T :
  kwargs !! "threshold" = Some T ->
  BinaryGalpropInterpolModel sfr_kw kwargs (world s) = (inr sfr, w1) ->
  smhm_model smhm_kw kwargs w1 = (inr sm, w2) ->
  ∃ bp,
    build s = factory_call bp (Some selection_func)
                {| world := w2; calls := calls s ++ [sfr_call; smhm_call] |} ∧
    (∀ x : gmap string pyval,
       selection_func x =
         (try a <- getitem x "stellar_mass"; py_gt gt_other a T)) ∧
    (∀ x y : gmap string pyval,
       x !! "stellar_mass" = y !! "stellar_mass" ->
       selection_func x = selection_func y) ∧
    (galprop_name sm ≠ "stellar_mass" ->
       galprop_name sm ∈ dom bp ∧
       (∀ v, selection_func {[galprop_name sm := v]}
             = inl (KeyError "stellar_mass")) ∧
       (galprop_name sfr ≠ "stellar_mass" -> "stellar_mass" ∉ dom bp)).
Proof.
  intros HT Hsfr Hsm.
  assert (Hsel : ∀ x : gmap string pyval,
             selection_func x =
               (try a <- getitem x "stellar_mass"; py_gt gt_other a T)).
  { intros x. unfold galaxy_selection_func.
    destruct (getitem x "stellar_mass"); simpl; [reflexivity|].
    unfold getitem. now rewrite HT. }
  eexists. split; [|split; [exact Hsel|split]].
  - rewrite (build_assembles _ _ _ _ _ Hsfr Hsm).
    now rewrite (threshold_present T HT).
  - intros x y Hxy. rewrite !Hsel. unfold getitem. now rewrite Hxy.
  - intros Hne. split; [|split].
    + rewrite !dom_insert_L. set_solver.
    + intros v. apply selection_func_missing.
      now apply lookup_singleton_ne.
    + intros Hne'. rewrite !dom_insert_L. set_solver.
Qed.

(** ** Further properties of the builder *)

(** The three ways a build can go, with what it returns and the state it
    leaves. *)
Lemma build_cases s :
  (∃ e w1,
     BinaryGalpropInterpolModel sfr_kw kwargs (world s) = (inl e, w1) ∧
     build s = (inl e, {| world := w1; calls := calls s ++ [sfr_call] |})) ∨
  (∃ sfr w1 e w2,
     BinaryGalpropInterpolModel sfr_kw kwargs (world s) = (inr sfr, w1) ∧
     smhm_model smhm_kw kwargs w1 = (inl e, w2) ∧
     build s = (inl e, {| world := w2;
                          calls := calls s ++ [sfr_call; smhm_call] |})) ∨
  (∃ sfr w1 sm w2 r w3,
     BinaryGalpropInterpolModel sfr_kw kwargs (world s) = (inr sfr, w1) ∧
     smhm_model smhm_kw kwargs w1 = (inr sm, w2) ∧
     SubhaloModelFactory (blueprint_of sm sfr) predicate_option w2 = (r, w3) ∧
     build s = (r, {| world := w3;
                      calls := calls s ++
                        [sfr_call; smhm_call;
                         EvSubhaloModelFactory (blueprint_of sm sfr)
                           predicate_option] |})).
Proof.
  destruct (BinaryGalpropInterpolModel sfr_kw kwargs (world s))
    as [[e|sfr] w1] eqn:Hsfr.
  { left. exists e, w1. split; [reflexivity|]. exact (build_sfr_raises _ _ _ Hsfr). }
  destruct (smhm_model smhm_kw kwargs w1) as [[e|sm] w2] eqn:Hsm.
  { right. left. exists sfr, w1, e, w2. split; [reflexivity|].
    split; [exact Hsm|]. exact (build_smhm_raises _ _ _ _ _ Hsfr Hsm). }
  right. right.
  destruct (SubhaloModelFactory (blueprint_of sm sfr) predicate_option w2)
    as [r w3] eqn:Hf.
  exists sfr, w1, sm, w2, r, w3. split; [reflexivity|]. split; [exact Hsm|].
  split; [exact Hf|].
  rewrite (build_assembles _ _ _ _ _ Hsfr Hsm). unfold invoke. simpl.
  rewrite Hf. now rewrite <- app_assoc.
Qed.

(** X1: the builder calls the SFR constructor first, the stellar-mass
    constructor second and the factory last, each at most once, and a call
    is made only when the calls before it have returned.  Both constructors
    get the same primary-halo-property key and the whole of the keyword
    options, ['threshold'] included when it is given. *)
Theorem X1_calls_in_order s :
  ∃ new,
    calls (snd (build s)) = (calls s ++ new)%list ∧
    ((new = [sfr_call] ∧
      ∃ e w1, BinaryGalpropInterpolModel sfr_kw kwargs (world s) = (inl e, w1)) ∨
     (new = [sfr_call; smhm_call] ∧
      ∃ sfr w1 e w2,
        BinaryGalpropInterpolModel sfr_kw kwargs (world s) = (inr sfr, w1) ∧
        smhm_model smhm_kw kwargs w1 = (inl e, w2)) ∨
     (∃ sfr w1 sm w2,
        BinaryGalpropInterpolModel sfr_kw kwargs (world s) = (inr sfr, w1) ∧
        smhm_model smhm_kw kwargs w1 = (inr sm, w2) ∧
        new = [sfr_call; smhm_call;
               EvSubhaloModelFactory (blueprint_of sm sfr) predicate_option])).
Proof.
  destruct (build_cases s)
    as [(e & w1 & Hsfr & ->)
       |[(sfr & w1 & e & w2 & Hsfr & Hsm & ->)
        |(sfr & w1 & sm & w2 & r & w3 & Hsfr & Hsm & Hf & ->)]];
    simpl; eexists; (split; [reflexivity|]).
  - left. split; [reflexivity|]. now exists e, w1.
  - right. left. split; [reflexivity|]. now exists sfr, w1, e, w2.
  - right. right. now exists sfr, w1, sm, w2.
Qed.

(** X2: whatever names the two sub-models declare, the blueprint handed to
    the factory is never empty and never has more than two entries; its keys
    are the declared names; the SFR sub-model is always there under its
    name; there are two entries exactly when the names differ; and the
    stellar-mass sub-model is there under its name exactly when the names
    differ or the two sub-models are one and the same. *)
Theorem X2_blueprint_invariant s sfr w1 sm w2 :
  BinaryGalpropInterpolModel sfr_kw kwargs (world s) = (inr sfr, w1) ->
  smhm_model smhm_kw kwargs w1 = (inr sm, w2) ->
  ∃ bp sel,
    build s = factory_call bp sel
                {| world := w2; calls := calls s ++ [sfr_call; smhm_call] |} ∧
    bp !! galprop_name sfr = Some sfr ∧
    dom bp = {[galprop_name sm; galprop_name sfr]} ∧
    (1 <= size bp <= 2)%nat ∧
    (size bp = 2%nat ↔ galprop_name sm ≠ galprop_name sfr) ∧
    (∀ k m, bp !! k = Some m -> m = sm ∨ m = sfr) ∧
    (bp !! galprop_name sm = Some sm
     ↔ galprop_name sm ≠ galprop_name sfr ∨ sm = sfr).
Proof.
  intros Hsfr Hsm. exists (blueprint_of sm sfr), predicate_option.
  split; [apply (build_assembles _ _ _ _ _ Hsfr Hsm)|].
  assert (Hsize : size (blueprint_of sm sfr)
                  = if decide (galprop_name sm = galprop_name sfr)
                    then 1%nat else 2%nat).
  { destruct (decide (galprop_name sm = galprop_name sfr)) as [Heq|Hne].
    - rewrite Heq, insert_insert_eq, insert_empty. apply map_size_singleton.
    - rewrite map_size_insert_None.
      + now rewrite map_size_insert_None.
      + rewrite lookup_insert_ne by done. apply lookup_empty. }
  split; [apply lookup_insert_eq|].
  split; [rewrite !dom_insert_L; set_solver|].
  split; [rewrite Hsize; case_decide; lia|].
  split; [rewrite Hsize; case_decide; split; (lia || congruence)|].
  split.
  - intros k m Hk. apply lookup_insert_Some in Hk.
    destruct Hk as [[_ <-]|[_ Hk]]; [now right|].
    apply lookup_insert_Some in Hk.
    destruct Hk as [[_ <-]|[_ Hk]]; [now left|].
    now rewrite lookup_empty in Hk.
  - destruct (decide (galprop_name sm = galprop_name sfr)) as [Heq|Hne].
    + rewrite Heq, lookup_insert_eq. split.
      * intros [= ->]. now right.
      * intros [Hne| ->]; [contradiction|reflexivity].
    + rewrite lookup_insert_ne by done. rewrite lookup_insert_eq.
      split; [now left|reflexivity].
Qed.


(** X3: the factory is given a predicate exactly when ['threshold'] is
    among the keyword options, so the lookup of the threshold inside the
    predicate it is given never fails: on a record with a stellar mass the
    predicate is the comparison of that stellar mass with the threshold, and
    a record without "stellar_mass" raises the [KeyError] of that key. *)
Theorem X3_predicate_finds_its_threshold s sfr w1 sm w2 :
  BinaryGalpropInterpolModel sfr_kw kwargs (world s) = (inr sfr, w1) ->
  smhm_model smhm_kw kwargs w1 = (inr sm, w2) ->
  ∃ osel,
    build s = factory_call (blueprint_of sm sfr) osel
                {| world := w2; calls := calls s ++ [sfr_call; smhm_call] |} ∧
    (osel = None ↔ kwargs !! "threshold" = None) ∧
    (∀ sel, osel = Some sel ->
       ∃ T, kwargs !! "threshold" = Some T ∧
         ∀ x : gmap string pyval,
           (x !! "stellar_mass" = None ->
            sel x = inl (KeyError "stellar_mass")) ∧
           (∀ v, x !! "stellar_mass" = Some v ->
                 sel x = py_gt gt_other v T)).
Proof.
  intros Hsfr Hsm. exists predicate_option.
  split; [apply (build_assembles _ _ _ _ _ Hsfr Hsm)|].
  destruct (kwargs !! "threshold") as [T|] eqn:HT.
  - rewrite (threshold_present T HT). split; [split; discriminate|].
    intros sel [= <-]. exists T. split; [reflexivity|].
    intros x. split.
    + apply selection_func_missing.
    + intros v Hx. exact (selection_func_eval T x v HT Hx).
  - rewrite (threshold_absent HT). split; [split; reflexivity|].
    discriminate.
Qed.

(** X4: thresholds and stellar masses that are not finite.  With a numeric
    threshold and a numeric stellar mass the predicate never raises; a NaN
    threshold rejects every record, and so does [float('inf')]; a NaN
    stellar mass is rejected under every threshold; and [float('-inf')]
    accepts every stellar mass but NaN and [float('-inf')] itself. *)
Theorem X4_predicate_not_finite (x : gmap string pyval) T t v n :
  kwargs !! "threshold" = Some T ->
  PyNum.as_num T = Some t ->
  x !! "stellar_mass" = Some v ->
  PyNum.as_num v = Some n ->
  (∃ b, selection_func x = inr (PyBool b)) ∧
  (t = PyNum.NFloat float_nan -> selection_func x = inr (PyBool false)) ∧
  (t = PyNum.NFloat float_inf -> selection_func x = inr (PyBool false)) ∧
  (n = PyNum.NFloat float_nan -> selection_func x = inr (PyBool false)) ∧
  (t = PyNum.NFloat float_neg_inf ->
   n ≠ PyNum.NFloat float_nan -> n ≠ PyNum.NFloat float_neg_inf ->
   selection_func x = inr (PyBool true)).
Proof.
  intros HT Ht Hx Hn.
  assert (Hsel : selection_func x = inr (PyBool (PyNum.gtb n t))).
  { rewrite (selection_func_eval T x v HT Hx). unfold py_gt.
    now rewrite Hn, Ht. }
  rewrite Hsel. split; [now eexists|]. repeat split.
  - intros ->. destruct n as [k|[| | |]]; reflexivity.
  - intros ->. destruct n as [k|[| [|] | |]]; reflexivity.
  - intros ->. destruct t as [k|[| | |]]; reflexivity.
  - intros -> Hnan Hninf.
    destruct n as [k|[| [|] | |]]; try reflexivity; contradiction.
Qed.

End SmHmBinarySFR_properties.

(** ** The two construction calls, down to the constructor bodies *)

Lemma keywords_clash_false kw extra :
  keywords_clash kw extra = false ->
  ∀ k v, (k, v) ∈ kw -> extra !! k = None.
Proof.
  unfold keywords_clash. induction kw as [|[k' v'] kw IH]; simpl.
  - intros _ k v Hin. now apply elem_of_nil in Hin.
  - intros Hc k v Hin. apply orb_false_iff in Hc. destruct Hc as [Hk Hc].
    apply elem_of_cons in Hin. destruct Hin as [[= -> ->]|Hin].
    + apply bool_decide_eq_false in Hk.
      destruct (extra !! k') eqn:E; [|reflexivity].
      exfalso. apply Hk. eauto.
    + exact (IH Hc k v Hin).
Qed.

Lemma keywords_clash_true kw extra k v :
  (k, v) ∈ kw -> is_Some (extra !! k) -> keywords_clash kw extra = true.
Proof.
  unfold keywords_clash. induction kw as [|[k' v'] kw IH]; simpl.
  - intros Hin. now apply elem_of_nil in Hin.
  - intros Hin Hk. apply elem_of_cons in Hin. apply orb_true_iff.
    destruct Hin as [[= -> ->]|Hin].
    + left. now apply bool_decide_eq_true.
    + right. exact (IH Hin Hk).
Qed.

(** A clash is a [TypeError]. *)
Lemma bind_keywords_clash kw extra k v :
  (k, v) ∈ kw -> is_Some (extra !! k) ->
  bind_keywords kw extra
  = inl (TypeError "got multiple values for keyword argument").
Proof.
  intros Hin Hk. unfold bind_keywords.
  now rewrite (keywords_clash_true kw extra k v Hin Hk).
Qed.

(** Without a clash the keyword dictionary holds the written keywords and
    the unpacked dictionary, each value as it was given, and nothing else. *)
Lemma bind_keywords_inr kw extra d :
  NoDup kw.*1 ->
  bind_keywords kw extra = inr d ->
  (∀ k v, (k, v) ∈ kw -> d !! k = Some v) ∧
  (∀ k v, extra !! k = Some v -> d !! k = Some v) ∧
  (∀ k v, d !! k = Some v -> (k, v) ∈ kw ∨ extra !! k = Some v).
Proof.
  intros Hnd. unfold bind_keywords.
  destruct (keywords_clash kw extra) eqn:Hc; [discriminate|].
  intros [= <-]. split; [|split].
  - intros k v Hin. apply lookup_union_Some_l.
    now apply elem_of_list_to_map_1.
  - intros k v Hk. rewrite lookup_union_r; [exact Hk|].
    apply not_elem_of_list_to_map_1. intros Hin.
    apply list_elem_of_fmap in Hin. destruct Hin as ([k' v'] & -> & Hin).
    simpl in Hk.
    rewrite (keywords_clash_false kw extra Hc k' v' Hin) in Hk. discriminate.
  - intros k v Hk. apply lookup_union_Some_raw in Hk.
    destruct Hk as [Hk|[_ Hk]]; [left|now right].
    now apply elem_of_list_to_map_2.
Qed.

Section SFR_call_site.

Context {W component composite_model : Type}.
Variable galprop_name : component -> string.
(** The SFR constructor is given by its body; the stellar-mass constructor
    is any callable. *)
Variable sfr_body : gmap string pyval -> W -> result component * W.
Variable smhm_model : @callable W component.
Variable SubhaloModelFactory :
  gmap string component -> option selection -> W -> result composite_model * W.
Variable gt_other : pyval -> pyval -> result pyval.

Variable prim_haloprop_key : pyval.
Variables scatter_level redshift sfr_abcissa sfr_ordinates logparam : pyval.
Variable kwargs : gmap string pyval.

Local Notation sfr_kw :=
  [("galprop_name", PyStr "quiescent");
   ("prim_haloprop_key", prim_haloprop_key);
   ("abcissa", sfr_abcissa); ("ordinates", sfr_ordinates);
   ("logparam", logparam)].
Local Notation smhm_kw :=
  [("prim_haloprop_key", prim_haloprop_key); ("redshift", redshift);
   ("scatter_abcissa", PyList [PyInt 12]);
   ("scatter_ordinates", PyList [scatter_level])].
Local Notation sfr_call := (EvBinaryGalpropInterpolModel sfr_kw kwargs).
Local Notation factory_call bp sel :=
  (invoke (EvSubhaloModelFactory bp sel) (SubhaloModelFactory bp sel)).
Local Notation blueprint_of sm sfr :=
  (<[galprop_name sfr := sfr]>
     (<[galprop_name sm := sm]> (∅ : gmap string component))).
Local Notation predicate_option :=
  (if decide ("threshold" ∈ dom kwargs)
   then Some (galaxy_selection_func gt_other kwargs) else None).

Local Notation build_sfr_body :=
  (SmHmBinarySFR galprop_name (py_call sfr_body) SubhaloModelFactory
     gt_other prim_haloprop_key smhm_model scatter_level redshift
     sfr_abcissa sfr_ordinates logparam kwargs).

Lemma sfr_kw_NoDup : NoDup sfr_kw.*1.
Proof. simpl. repeat (apply NoDup_cons_2; [set_solver|]). apply NoDup_nil_2. Qed.

(** C6 (amended): when the keyword options repeat none of the keywords
    written at the call, the body of the SFR constructor is entered, on the
    world the builder was called in, with a keyword dictionary that holds
    "quiescent" as the property name, the shared primary-halo-property key,
    the values of [sfr_abcissa], [sfr_ordinates] and [logparam] exactly as
    the builder received them, and the keyword options, and nothing else;
    what the body does there is the first step of the build: its error is
    the error of the build, the sub-model it returns is the one the
    blueprint files.  When an option repeats a written keyword the build
    raises the [TypeError] of the clash and the body is not entered. *)
Theorem C6_sfr_arguments_round_trip s :
  (∀ d, bind_keywords sfr_kw kwargs = inr d ->
     (d !! "galprop_name" = Some (PyStr "quiescent") ∧
      d !! "prim_haloprop_key" = Some prim_haloprop_key ∧
      d !! "abcissa" = Some sfr_abcissa ∧
      d !! "ordinates" = Some sfr_ordinates ∧
      d !! "logparam" = Some logparam ∧
      (∀ k v, kwargs !! k = Some v -> d !! k = Some v) ∧
      (∀ k v, d !! k = Some v -> (k, v) ∈ sfr_kw ∨ kwargs !! k = Some v)) ∧
     (∀ e w1, sfr_body d (world s) = (inl e, w1) ->
        build_sfr_body s
        = (inl e, {| world := w1; calls := calls s ++ [sfr_call] |})) ∧
     (∀ sfr w1 e w2,
        sfr_body d (world s) = (inr sfr, w1) ->
        smhm_model smhm_kw kwargs w1 = (inl e, w2) ->
        build_sfr_body s
        = (inl e, {| world := w2;
                     calls := calls s ++
                       [sfr_call; EvSmhmModel smhm_model smhm_kw kwargs] |})) ∧
     (∀ sfr w1 sm w2,
        sfr_body d (world s) = (inr sfr, w1) ->
        smhm_model smhm_kw kwargs w1 = (inr sm, w2) ->
        blueprint_of sm sfr !! galprop_name sfr = Some sfr ∧
        build_sfr_body s
        = factory_call (blueprint_of sm sfr) predicate_option
            {| world := w2;
               calls := calls s ++
                 [sfr_call; EvSmhmModel smhm_model smhm_kw kwargs] |})) ∧
  (∀ e, bind_keywords sfr_kw kwargs = inl e ->
     build_sfr_body s
     = (inl e, {| world := world s; calls := calls s ++ [sfr_call] |})).
Proof.
  split.
  - intros d Hd.
    assert (Hcall : py_call sfr_body sfr_kw kwargs (world s)
                    = sfr_body d (world s))
      by (unfold py_call; now rewrite Hd).
    destruct (bind_keywords_inr _ _ _ sfr_kw_NoDup Hd) as (Hkw & Hextra & Honly).
    split; [|split; [|split]].
    + repeat split; try (apply Hkw; set_solver); assumption.
    + intros e w1 Hb. apply build_sfr_raises. now rewrite Hcall.
    + intros sfr w1 e w2 Hb Hsm.
      apply (build_smhm_raises _ _ _ _ _ _ _ _ _ _ _ _ _ sfr w1); [|exact Hsm].
      now rewrite Hcall.
    + intros sfr w1 sm w2 Hb Hsm. split; [apply lookup_insert_eq|].
      apply (build_assembles _ _ _ _ _ _ _ _ _ _ _ _ _ sfr w1); [|exact Hsm].
      now rewrite Hcall.
  - intros e He. apply build_sfr_raises. unfold py_call. now rewrite He.
Qed.

End SFR_call_site.

Section SMHM_call_site.

Context {W component composite_model : Type}.
Variable galprop_name : component -> string.
(** The SFR constructor is any callable; the callable given as
    [smhm_model] is given by its body. *)
Variable BinaryGalpropInterpolModel : @callable W component.
Variable smhm_body : gmap string pyval -> W -> result component * W.
Variable SubhaloModelFactory :
  gmap string component -> option selection -> W -> result composite_model * W.
Variable gt_other : pyval -> pyval -> result pyval.

Variable prim_haloprop_key : pyval.
Variables scatter_level redshift sfr_abcissa sfr_ordinates logparam : pyval.
Variable kwargs : gmap string pyval.

Local Notation sfr_kw :=
  [("galprop_name", PyStr "quiescent");
   ("prim_haloprop_key", prim_haloprop_key);
   ("abcissa", sfr_abcissa); ("ordinates", sfr_ordinates);
   ("logparam", logparam)].
Local Notation smhm_kw :=
  [("prim_haloprop_key", prim_haloprop_key); ("redshift", redshift);
   ("scatter_abcissa", PyList [PyInt 12]);
   ("scatter_ordinates", PyList [scatter_level])].
Local Notation sfr_call := (EvBinaryGalpropInterpolModel sfr_kw kwargs).
Local Notation factory_call bp sel :=
  (invoke (EvSubhaloModelFactory bp sel) (SubhaloModelFactory bp sel)).
Local Notation blueprint_of sm sfr :=
  (<[galprop_name sfr := sfr]>
     (<[galprop_name sm := sm]> (∅ : gmap string component))).
Local Notation predicate_option :=
  (if decide ("threshold" ∈ dom kwargs)
   then Some (galaxy_selection_func gt_other kwargs) else None).

Local Notation build_smhm_body :=
  (SmHmBinarySFR galprop_name BinaryGalpropInterpolModel SubhaloModelFactory
     gt_other prim_haloprop_key (py_call smhm_body) scatter_level redshift
     sfr_abcissa sfr_ordinates logparam kwargs).

Lemma smhm_kw_NoDup : NoDup smhm_kw.*1.
Proof. simpl. repeat (apply NoDup_cons_2; [set_solver|]). apply NoDup_nil_2. Qed.

(** C7 (amended): once the SFR sub-model is built, and when the keyword
    options repeat none of the keywords written at the call, the body of the
    callable given as [smhm_model] is entered once, on the world the SFR
    constructor left, with a keyword dictionary that holds the shared
    primary-halo-property key, the redshift, the scatter abcissa [[12]], the
    scatter ordinates [[scatter_level]] and the keyword options, and nothing
    else; its error is the error of the build, and the sub-model it returns
    goes into the blueprint, on which the factory is called in the world
    that one run of the body left.  When an option repeats a written
    keyword the build raises the [TypeError] of the clash in the world the
    SFR constructor left: the body is not entered. *)
Theorem C7_custom_smhm_invoked_once s sfr w1 :
  BinaryGalpropInterpolModel sfr_kw kwargs (world s) = (inr sfr, w1) ->
  (∀ d, bind_keywords smhm_kw kwargs = inr d ->
     (d !! "prim_haloprop_key" = Some prim_haloprop_key ∧
      d !! "redshift" = Some redshift ∧
      d !! "scatter_abcissa" = Some (PyList [PyInt 12]) ∧
      d !! "scatter_ordinates" = Some (PyList [scatter_level]) ∧
      (∀ k v, kwargs !! k = Some v -> d !! k = Some v) ∧
      (∀ k v, d !! k = Some v -> (k, v) ∈ smhm_kw ∨ kwargs !! k = Some v)) ∧
     (∀ e w2, smhm_body d w1 = (inl e, w2) ->
        build_smhm_body s
        = (inl e, {| world := w2;
                     calls := calls s ++
                       [sfr_call;
                        EvSmhmModel (py_call smhm_body) smhm_kw kwargs] |})) ∧
     (∀ sm w2, smhm_body d w1 = (inr sm, w2) ->
        build_smhm_body s
        = factory_call (blueprint_of sm sfr) predicate_option
            {| world := w2;
               calls := calls s ++
                 [sfr_call;
                  EvSmhmModel (py_call smhm_body) smhm_kw kwargs] |})) ∧
  (∀ e, bind_keywords smhm_kw kwargs = inl e ->
     build_smhm_body s
     = (inl e, {| world := w1;
                  calls := calls s ++
                    [sfr_call;
                     EvSmhmModel (py_call smhm_body) smhm_kw kwargs] |})).
Proof.
  intros Hsfr. split.
  - intros d Hd.
    assert (Hcall : py_call smhm_body smhm_kw kwargs w1 = smhm_body d w1)
      by (unfold py_call; now rewrite Hd).
    destruct (bind_keywords_inr _ _ _ smhm_kw_NoDup Hd) as (Hkw & Hextra & Honly).
    split; [|split].
    + repeat split; try (apply Hkw; set_solver); assumption.
    + intros e w2 Hb.
      apply (build_smhm_raises _ _ _ _ _ _ _ _ _ _ _ _ _ sfr w1); [exact Hsfr|].
      now rewrite Hcall.
    + intros sm w2 Hb.
      apply (build_assembles _ _ _ _ _ _ _ _ _ _ _ _ _ sfr w1); [exact Hsfr|].
      now rewrite Hcall.
  - intros e He.
    apply (build_smhm_raises _ _ _ _ _ _ _ _ _ _ _ _ _ sfr w1); [exact Hsfr|].
    unfold py_call. now rewrite He.
Qed.

End SMHM_call_site.

(** ** The designer stub *)

(** C10 (amended): the constructor of [HOD_Model_Designer] returns a new
    instance for every list of positional arguments, the empty one
    included, and every dictionary of named arguments in which no argument
    is named [self]; its [__init__] returns [None] and changes nothing: the
    new instance has no attribute and every other object is as it was.  A
    named argument [self] is a [TypeError], since [__init__] already has the
    instance for that parameter, and leaves the store as it was. *)
Theorem C10_designer_accepts_any_arguments
    (args : list hod_designer.value) (kwargs : gmap string hod_designer.value)
    (h : hod_designer.heap) :
  (kwargs !! "self" = None ->
     (∀ self, hod_designer.__init__ (self :: args) kwargs h
              = (inr (hod_designer.Val PyNone), h)) ∧
     ∃ self,
       h !! self = None ∧
       hod_designer.HOD_Model_Designer args kwargs h
       = (inr self, <[self := ∅]> h)) ∧
  (is_Some (kwargs !! "self") ->
     hod_designer.HOD_Model_Designer args kwargs h
     = (inl (TypeError "__init__() got multiple values for argument 'self'"),
        h)).
Proof.
  unfold hod_designer.heap in *. split.
  - intros Hk. split.
    + intros self. unfold hod_designer.__init__, hod_designer.bind_parameters.
      now rewrite Hk.
    + exists (fresh (dom h)). split; [apply not_elem_of_dom, is_fresh|].
      unfold hod_designer.HOD_Model_Designer, hod_designer.__init__,
        hod_designer.bind_parameters.
      now rewrite Hk.
  - intros [v Hk].
    unfold hod_designer.HOD_Model_Designer, hod_designer.__init__,
      hod_designer.bind_parameters.
    rewrite Hk. simpl. f_equal.
    apply delete_insert_id, not_elem_of_dom, is_fresh.
Qed.

(** ** The builder run on concrete collaborators *)

Local Notation mock_thm thm :=
  (thm nat Mock.component Mock.composite_model Mock.galprop_name
       Mock.BinaryGalpropInterpolModel Mock.SubhaloModelFactory Mock.gt_other
       Mock.default_smhm_haloprop).

(** The default call: two sub-models, two blueprint entries, a composite
    model returned. *)
Lemma C1_witness_default_sub_models :
  Mock.BinaryGalpropInterpolModel (Mock.sfr_kw Mock.default_ordinates) ∅ 0%nat
    = (inr (Mock.sfr_component ∅), 1%nat) ∧
  Mock.Behroozi10SmHm Mock.smhm_kw ∅ 1%nat
    = (inr (Mock.sm_component "stellar_mass" ∅), 2%nat) ∧
  ∃ bp sel,
    size bp = 2%nat ∧
    dom bp = ({["stellar_mass"; "quiescent"]} : gset string) ∧
    fst (Mock.SmHmBinarySFR_defaults ∅ Mock.start)
      = inr {| Mock.blueprint := bp; Mock.galaxy_selection := sel |}.
Proof.
  split; [reflexivity|]. split; [reflexivity|].
  destruct (mock_thm (@C1_blueprint_two_entries)
              Mock.Behroozi10SmHm (PyFloat float_0_2) Mock.default_redshift
              Mock.default_abcissa Mock.default_ordinates (PyBool true)
              ∅ Mock.start (Mock.sfr_component ∅) 1%nat
              (Mock.sm_component "stellar_mass" ∅) 2%nat
              eq_refl eq_refl ltac:(discriminate))
    as (bp & sel & Hsize & _ & Hsm & _ & _ & Hret & Hdom).
  exists bp, sel. split; [exact Hsize|]. split; [exact (Hdom eq_refl eq_refl)|].
  change (bp !! "stellar_mass" = Some (Mock.sm_component "stellar_mass" ∅)) in Hsm.
  assert (Hf : Mock.SubhaloModelFactory bp sel 2%nat
               = (inr {| Mock.blueprint := bp; Mock.galaxy_selection := sel |},
                  3%nat)).
  { unfold Mock.SubhaloModelFactory. rewrite Hsm. destruct sel; reflexivity. }
  exact (f_equal fst (Hret _ _ Hf)).
Defined.

(** [threshold=0.25]: 0.25 - 1 is rejected, 0.25 is rejected, 0.25 + 1 is
    accepted. *)
Lemma C2_witness_threshold_quarter :
  let T := PyFloat float_0_25 in
  let kwargs : gmap string pyval := {["threshold" := T]} in
  let lo := S754_finite true 6755399441055744 (-53) in
  let hi := S754_finite false 5629499534213120 (-52) in
  kwargs !! "threshold" = Some T ∧
  PyNum.sub (PyNum.NFloat float_0_25) (PyNum.NInt 1) = inr (PyNum.NFloat lo) ∧
  PyNum.add (PyNum.NFloat float_0_25) (PyNum.NInt 1) = inr (PyNum.NFloat hi) ∧
  Mock.galaxy_selection_func kwargs {["stellar_mass" := PyFloat lo]}
    = inr (PyBool false) ∧
  Mock.galaxy_selection_func kwargs {["stellar_mass" := T]}
    = inr (PyBool false) ∧
  Mock.galaxy_selection_func kwargs {["stellar_mass" := PyFloat hi]}
    = inr (PyBool true).
Proof.
  intros T kwargs lo hi.
  destruct (mock_thm (@C2_threshold_predicate_strict)
              Mock.Behroozi10SmHm (PyFloat float_0_2) Mock.default_redshift
              Mock.default_abcissa Mock.default_ordinates (PyBool true)
              kwargs Mock.start (Mock.sfr_component kwargs) 1%nat
              (Mock.sm_component "stellar_mass" kwargs) 2%nat
              T (PyNum.NFloat float_0_25)
              eq_refl eq_refl eq_refl eq_refl)
    as (bp & _ & _ & Heq & Hlo & Hhi & _).
  split; [reflexivity|]. split; [reflexivity|]. split; [reflexivity|].
  split; [|split].
  - apply (Hlo _ (PyNum.NFloat lo)); reflexivity.
  - apply Heq. reflexivity.
  - apply (Hhi _ (PyNum.NFloat hi)); reflexivity.
Defined.

(** [threshold=2.0**53]: adding 1 is absorbed by rounding, so the record
    with stellar mass T + 1 is the record with stellar mass T, and the
    predicate the composite model is built with rejects it.  The same with
    [threshold=float('inf')]. *)
Lemma C2_counterexample_float_absorbs_one :
  let T := PyFloat float_2p53 in
  let kwargs : gmap string pyval := {["threshold" := T]} in
  PyNum.as_num T = Some (PyNum.NFloat float_2p53) ∧
  PyNum.add (PyNum.NFloat float_2p53) (PyNum.NInt 1)
    = inr (PyNum.NFloat float_2p53) ∧
  (∃ bp, fst (Mock.SmHmBinarySFR_defaults kwargs Mock.start)
         = inr {| Mock.blueprint := bp;
                  Mock.galaxy_selection :=
                    Some (Mock.galaxy_selection_func kwargs) |}) ∧
  Mock.galaxy_selection_func kwargs {["stellar_mass" := PyFloat float_2p53]}
    = inr (PyBool false) ∧
  Mock.galaxy_selection_func kwargs {["stellar_mass" := PyFloat float_2p53]}
    ≠ inr (PyBool true) ∧
  PyNum.add (PyNum.NFloat float_inf) (PyNum.NInt 1)
    = inr (PyNum.NFloat float_inf) ∧
  Mock.galaxy_selection_func {["threshold" := PyFloat float_inf]}
    {["stellar_mass" := PyFloat float_inf]} = inr (PyBool false).
Proof.
  intros T kwargs. split; [reflexivity|]. split; [reflexivity|].
  split; [eexists; reflexivity|].
  split; [reflexivity|]. split; [vm_compute; discriminate|].
  split; reflexivity.
Qed.


(** No keyword option at all: the factory gets the dictionary of the two
    sub-models, and nothing else. *)
Lemma C3_witness_no_keyword_options :
  let sfr := Mock.sfr_component ∅ in
  let sm := Mock.sm_component "stellar_mass" ∅ in
  let bp : gmap string Mock.component :=
    <["quiescent" := sfr]> (<["stellar_mass" := sm]> ∅) in
  (∅ : gmap string pyval) !! "threshold" = None ∧
  Mock.SmHmBinarySFR_defaults ∅ Mock.start =
    invoke (EvSubhaloModelFactory bp None) (Mock.SubhaloModelFactory bp None)
      {| world := 2%nat;
         calls := [EvBinaryGalpropInterpolModel
                     (Mock.sfr_kw Mock.default_ordinates) ∅;
                   EvSmhmModel Mock.Behroozi10SmHm Mock.smhm_kw ∅] |}.
Proof.
  intros sfr sm bp.
  assert (Habsent : (∅ : gmap string pyval) !! "threshold" = None)
    by reflexivity.
  split; [exact Habsent|].
  destruct (mock_thm (@C3_no_threshold_no_predicate)
              Mock.Behroozi10SmHm (PyFloat float_0_2) Mock.default_redshift
              Mock.default_abcissa Mock.default_ordinates (PyBool true)
              ∅ Mock.start Habsent) as [Hbuilt _].
  exact (proj1 (Hbuilt sfr 1%nat sm 2%nat eq_refl eq_refl)).
Defined.

(** [threshold=None] given explicitly: the predicate is attached, and on a
    record of stellar mass 5 it is the comparison of 5 with [None]. *)
Lemma C4_witness_explicit_None :
  let kwargs : gmap string pyval := {["threshold" := PyNone]} in
  kwargs !! "threshold" = Some PyNone ∧
  (∃ bp,
     Mock.SmHmBinarySFR_defaults kwargs Mock.start =
       invoke (EvSubhaloModelFactory bp (Some (Mock.galaxy_selection_func kwargs)))
         (Mock.SubhaloModelFactory bp (Some (Mock.galaxy_selection_func kwargs)))
         {| world := 2%nat;
            calls := [EvBinaryGalpropInterpolModel
                        (Mock.sfr_kw Mock.default_ordinates) kwargs;
                      EvSmhmModel Mock.Behroozi10SmHm Mock.smhm_kw kwargs] |}) ∧
  Mock.galaxy_selection_func kwargs {["stellar_mass" := PyInt 5]}
    = Mock.gt_other (PyInt 5) PyNone.
Proof.
  intros kwargs. split; [reflexivity|].
  destruct (mock_thm (@C4_predicate_attached_on_key_presence)
              Mock.Behroozi10SmHm (PyFloat float_0_2) Mock.default_redshift
              Mock.default_abcissa Mock.default_ordinates (PyBool true)
              kwargs Mock.start (Mock.sfr_component kwargs) 1%nat
              (Mock.sm_component "stellar_mass" kwargs) 2%nat PyNone
              eq_refl eq_refl eq_refl) as (bp & Hrun & _ & Hnone).
  split; [exists bp; exact Hrun|].
  apply (Hnone eq_refl). reflexivity.
Defined.

(** A stellar-mass model that declares "quiescent", the name of the SFR
    sub-model: the single blueprint entry is the SFR sub-model. *)
Lemma C5_witness_shared_name :
  let sfr := Mock.sfr_component ∅ in
  let sm := Mock.sm_component "quiescent" ∅ in
  Mock.BinaryGalpropInterpolModel (Mock.sfr_kw Mock.default_ordinates) ∅ 0%nat
    = (inr sfr, 1%nat) ∧
  Mock.smhm "quiescent" Mock.smhm_kw ∅ 1%nat = (inr sm, 2%nat) ∧
  Mock.galprop_name sm = Mock.galprop_name sfr ∧
  ∃ bp sel,
    Mock.build (Mock.smhm "quiescent") Mock.default_ordinates ∅ Mock.start =
      invoke (EvSubhaloModelFactory bp sel) (Mock.SubhaloModelFactory bp sel)
        {| world := 2%nat;
           calls := [EvBinaryGalpropInterpolModel
                       (Mock.sfr_kw Mock.default_ordinates) ∅;
                     EvSmhmModel (Mock.smhm "quiescent") Mock.smhm_kw ∅] |} ∧
    size bp = 1%nat ∧
    bp = {["quiescent" := sfr]}.
Proof.
  intros sfr sm. split; [reflexivity|]. split; [reflexivity|].
  split; [reflexivity|].
  destruct (mock_thm (@C5_same_name_keeps_sfr_model)
              (Mock.smhm "quiescent") (PyFloat float_0_2) Mock.default_redshift
              Mock.default_abcissa Mock.default_ordinates (PyBool true)
              ∅ Mock.start sfr 1%nat sm 2%nat eq_refl eq_refl eq_refl)
    as (bp & sel & Hrun & Hsize & _ & Hbp & _).
  exists bp, sel. split; [exact Hrun|]. split; [exact Hsize|exact Hbp].
Defined.

(** The same call against the claim as stated: the entry under the shared
    name is the SFR sub-model, built in the first step, and not the
    stellar-mass sub-model, built in the second. *)
Lemma C5_counterexample_sfr_model_survives :
  let sfr := Mock.sfr_component ∅ in
  let sm := Mock.sm_component "quiescent" ∅ in
  Mock.BinaryGalpropInterpolModel (Mock.sfr_kw Mock.default_ordinates) ∅ 0%nat
    = (inr sfr, 1%nat) ∧
  Mock.smhm "quiescent" Mock.smhm_kw ∅ 1%nat = (inr sm, 2%nat) ∧
  Mock.galprop_name sm = Mock.galprop_name sfr ∧
  ∃ c,
    fst (Mock.build (Mock.smhm "quiescent") Mock.default_ordinates ∅ Mock.start)
      = inr c ∧
    size (Mock.blueprint c) = 1%nat ∧
    Mock.blueprint c !! "quiescent" = Some sfr ∧
    Mock.blueprint c !! "quiescent" ≠ Some sm.
Proof.
  intros sfr sm. split; [reflexivity|]. split; [reflexivity|].
  split; [reflexivity|].
  eexists. split; [reflexivity|]. split; [reflexivity|].
  split; [reflexivity|]. vm_compute. discriminate.
Qed.



(** The default values with [threshold=10]: the body of the SFR constructor
    is entered with [[12, 15]], [[0.25, 0.75]], [True] and the threshold in
    its keyword dictionary, and the sub-model it returns is the one the
    factory is called with. *)
Lemma C6_witness_default_values :
  let kwargs : gmap string pyval := {["threshold" := PyInt 10]} in
  let d : gmap string pyval :=
    list_to_map (Mock.sfr_kw Mock.default_ordinates) ∪ kwargs in
  let sfr := {| Mock.galprop_name := "quiescent"; Mock.built_from := [];
                Mock.built_extra := d |} in
  bind_keywords (Mock.sfr_kw Mock.default_ordinates) kwargs = inr d ∧
  MockBodies.sfr_body d 0%nat = (inr sfr, 1%nat) ∧
  d !! "abcissa" = Some (PyList [PyInt 12; PyInt 15]) ∧
  d !! "ordinates" = Some (PyList [PyFloat float_0_25; PyFloat float_0_75]) ∧
  d !! "logparam" = Some (PyBool true) ∧
  ∃ sm bp,
    bp !! "quiescent" = Some sfr ∧
    MockBodies.build Mock.default_ordinates kwargs Mock.start =
      invoke (EvSubhaloModelFactory bp (Some (Mock.galaxy_selection_func kwargs)))
        (Mock.SubhaloModelFactory bp (Some (Mock.galaxy_selection_func kwargs)))
        {| world := 2%nat;
           calls := [EvBinaryGalpropInterpolModel
                       (Mock.sfr_kw Mock.default_ordinates) kwargs;
                     EvSmhmModel (py_call (MockBodies.smhm_body "stellar_mass"))
                       Mock.smhm_kw kwargs] |} ∧
    Mock.galprop_name sm = "stellar_mass".
Proof.
  intros kwargs d sfr.
  assert (Hd : bind_keywords (Mock.sfr_kw Mock.default_ordinates) kwargs = inr d)
    by reflexivity.
  assert (Hbody : MockBodies.sfr_body d 0%nat = (inr sfr, 1%nat))
    by reflexivity.
  destruct (@C6_sfr_arguments_round_trip nat Mock.component
              Mock.composite_model Mock.galprop_name MockBodies.sfr_body
              (py_call (MockBodies.smhm_body "stellar_mass"))
              Mock.SubhaloModelFactory Mock.gt_other
              Mock.default_smhm_haloprop
              (PyFloat float_0_2) Mock.default_redshift Mock.default_abcissa
              Mock.default_ordinates (PyBool true) kwargs Mock.start)
    as [Hok _].
  destruct (Hok d Hd)
    as ((_ & _ & Habc & Hord & Hlog & _) & _ & _ & Hbuilt).
  split; [exact Hd|]. split; [exact Hbody|]. split; [exact Habc|].
  split; [exact Hord|]. split; [exact Hlog|].
  set (sm := {| Mock.galprop_name := "stellar_mass"; Mock.built_from := [];
                Mock.built_extra := list_to_map Mock.smhm_kw ∪ kwargs |}).
  destruct (Hbuilt sfr 1%nat sm 2%nat Hbody eq_refl) as [Hin Hrun].
  exists sm. eexists. split; [exact Hin|]. split; [exact Hrun|reflexivity].
Defined.

(** A keyword option named "abcissa": the call of the SFR constructor
    raises [TypeError] while binding its keywords, and no constructor body
    is entered (the world still counts none). *)
Lemma C6_counterexample_repeated_keyword :
  let kwargs : gmap string pyval :=
    {["abcissa" := PyList [PyInt 13; PyInt 14]]} in
  MockBodies.build Mock.default_ordinates kwargs Mock.start
  = (inl (TypeError "got multiple values for keyword argument"),
     {| world := 0%nat;
        calls := [EvBinaryGalpropInterpolModel
                    (Mock.sfr_kw Mock.default_ordinates) kwargs] |}).
Proof. reflexivity. Qed.

(** A custom stellar-mass model declaring "mstar": its body is entered once,
    after the SFR body, with the scatter specification in its keyword
    dictionary, and the factory is called in the world that counts these two
    entries. *)
Lemma C7_witness_custom_smhm :
  let d_sfr : gmap string pyval :=
    list_to_map (Mock.sfr_kw Mock.default_ordinates) in
  let d : gmap string pyval := list_to_map Mock.smhm_kw in
  let sfr := {| Mock.galprop_name := "quiescent"; Mock.built_from := [];
                Mock.built_extra := d_sfr ∪ ∅ |} in
  let sm := {| Mock.galprop_name := "mstar"; Mock.built_from := [];
               Mock.built_extra := d ∪ ∅ |} in
  let bp : gmap string Mock.component :=
    <["quiescent" := sfr]> (<["mstar" := sm]> ∅) in
  py_call MockBodies.sfr_body (Mock.sfr_kw Mock.default_ordinates) ∅ 0%nat
    = (inr sfr, 1%nat) ∧
  bind_keywords Mock.smhm_kw ∅ = inr (d ∪ ∅) ∧
  MockBodies.smhm_body "mstar" (d ∪ ∅) 1%nat = (inr sm, 2%nat) ∧
  (d ∪ ∅) !! "scatter_abcissa" = Some (PyList [PyInt 12]) ∧
  (d ∪ ∅) !! "scatter_ordinates" = Some (PyList [PyFloat float_0_2]) ∧
  SmHmBinarySFR Mock.galprop_name (py_call MockBodies.sfr_body)
    Mock.SubhaloModelFactory Mock.gt_other Mock.default_smhm_haloprop
    (py_call (MockBodies.smhm_body "mstar")) (PyFloat float_0_2)
    Mock.default_redshift Mock.default_abcissa Mock.default_ordinates
    (PyBool true) ∅ Mock.start =
    invoke (EvSubhaloModelFactory bp None) (Mock.SubhaloModelFactory bp None)
      {| world := 2%nat;
         calls := [EvBinaryGalpropInterpolModel
                     (Mock.sfr_kw Mock.default_ordinates) ∅;
                   EvSmhmModel (py_call (MockBodies.smhm_body "mstar"))
                     Mock.smhm_kw ∅] |}.
Proof.
  intros d_sfr d sfr sm bp.
  assert (Hsfr : py_call MockBodies.sfr_body
                   (Mock.sfr_kw Mock.default_ordinates) ∅ 0%nat
                 = (inr sfr, 1%nat)) by reflexivity.
  assert (Hd : bind_keywords Mock.smhm_kw ∅ = inr (d ∪ ∅)) by reflexivity.
  assert (Hbody : MockBodies.smhm_body "mstar" (d ∪ ∅) 1%nat = (inr sm, 2%nat))
    by reflexivity.
  destruct (@C7_custom_smhm_invoked_once nat Mock.component
              Mock.composite_model Mock.galprop_name
              (py_call MockBodies.sfr_body) (MockBodies.smhm_body "mstar")
              Mock.SubhaloModelFactory Mock.gt_other
              Mock.default_smhm_haloprop
              (PyFloat float_0_2) Mock.default_redshift Mock.default_abcissa
              Mock.default_ordinates (PyBool true) ∅ Mock.start
              sfr 1%nat Hsfr) as [Hok _].
  destruct (Hok (d ∪ ∅) Hd) as ((_ & _ & Habc & Hord & _) & _ & Hbuilt).
  split; [exact Hsfr|]. split; [exact Hd|]. split; [exact Hbody|].
  split; [exact Habc|]. split; [exact Hord|].
  exact (Hbuilt sm 2%nat Hbody).
Defined.

(** The callable is not entered when the SFR constructor raises, here on
    ordinates of the wrong length: only the SFR body was entered, and no
    stellar-mass call is in the log.  Nor is it entered when a keyword
    option is named "scatter_ordinates": the call raises [TypeError] while
    binding, and the world still counts the SFR body alone. *)
Lemma C7_counterexample_not_invoked :
  let short := PyList [PyFloat float_0_25] in
  let kwargs : gmap string pyval :=
    {["scatter_ordinates" := PyList [PyFloat float_0_25]]} in
  MockBodies.build short ∅ Mock.start
  = (inl (PyExn "ValueError" (PyStr "abcissa and ordinates differ in length")),
     {| world := 1%nat;
        calls := [EvBinaryGalpropInterpolModel (Mock.sfr_kw short) ∅] |}) ∧
  smhm_invocations (calls (snd (MockBodies.build short ∅ Mock.start))) = [] ∧
  MockBodies.build Mock.default_ordinates kwargs Mock.start
  = (inl (TypeError "got multiple values for keyword argument"),
     {| world := 1%nat;
        calls := [EvBinaryGalpropInterpolModel
                    (Mock.sfr_kw Mock.default_ordinates) kwargs;
                  EvSmhmModel (py_call (MockBodies.smhm_body "stellar_mass"))
                    Mock.smhm_kw kwargs] |}).
Proof. intros short kwargs. split; [reflexivity|]. split; reflexivity. Qed.

(** The three ways a build can fail: ordinates of the wrong length make the
    SFR constructor raise; a stellar-mass model that rejects its options
    raises; the factory raises on a predicate over a blueprint without a
    stellar-mass model.  Each error reaches the caller as it was raised. *)
Lemma C8_witness_three_failures :
  let short := PyList [PyFloat float_0_25] in
  let e_sfr := PyExn "ValueError" (PyStr "abcissa and ordinates differ in length") in
  let e_sm := PyExn "ValueError" (PyStr "redshift out of range") in
  let kwargs : gmap string pyval := {["threshold" := PyInt 10]} in
  Mock.build Mock.Behroozi10SmHm short ∅ Mock.start
    = (inl e_sfr,
       {| world := 0%nat;
          calls := [EvBinaryGalpropInterpolModel (Mock.sfr_kw short) ∅] |}) ∧
  Mock.build Mock.smhm_rejecting Mock.default_ordinates ∅ Mock.start
    = (inl e_sm,
       {| world := 1%nat;
          calls := [EvBinaryGalpropInterpolModel
                      (Mock.sfr_kw Mock.default_ordinates) ∅;
                    EvSmhmModel Mock.smhm_rejecting Mock.smhm_kw ∅] |}) ∧
  fst (Mock.build (Mock.smhm "mstar") Mock.default_ordinates kwargs Mock.start)
    = inl (KeyError "stellar_mass").
Proof.
  intros short e_sfr e_sm kwargs. split; [|split].
  - exact (proj1 (mock_thm (@C8_errors_propagate_unchanged)
             Mock.Behroozi10SmHm (PyFloat float_0_2) Mock.default_redshift
             Mock.default_abcissa short (PyBool true) ∅ Mock.start e_sfr)
           0%nat eq_refl).
  - exact (proj1 (proj2 (mock_thm (@C8_errors_propagate_unchanged)
             Mock.smhm_rejecting (PyFloat float_0_2) Mock.default_redshift
             Mock.default_abcissa Mock.default_ordinates (PyBool true)
             ∅ Mock.start e_sm))
           (Mock.sfr_component ∅) 1%nat 1%nat eq_refl eq_refl).
  - assert (Hfactory :
      Mock.SubhaloModelFactory
        (<[Mock.galprop_name (Mock.sfr_component kwargs) := Mock.sfr_component kwargs]>
           (<[Mock.galprop_name (Mock.sm_component "mstar" kwargs) :=
                Mock.sm_component "mstar" kwargs]> ∅))
        (if decide ("threshold" ∈ dom kwargs)
         then Some (galaxy_selection_func Mock.gt_other kwargs) else None)
        2%nat
      = (inl (KeyError "stellar_mass"), 2%nat)) by (vm_compute; reflexivity).
    exact (f_equal fst
             (proj1 (proj2 (proj2 (mock_thm (@C8_errors_propagate_unchanged)
                (Mock.smhm "mstar") (PyFloat float_0_2) Mock.default_redshift
                Mock.default_abcissa Mock.default_ordinates (PyBool true)
                kwargs Mock.start (KeyError "stellar_mass"))))
              (Mock.sfr_component kwargs) 1%nat
              (Mock.sm_component "mstar" kwargs) 2%nat 2%nat
              eq_refl eq_refl Hfactory)).
Defined.

(** A custom stellar-mass model declaring "mstar", with a threshold: the
    predicate cannot read a record that carries "mstar" only. *)
Lemma C9_witness_custom_name :
  let kwargs : gmap string pyval := {["threshold" := PyInt 10]} in
  kwargs !! "threshold" = Some (PyInt 10) ∧
  Mock.galprop_name (Mock.sm_component "mstar" kwargs) ≠ "stellar_mass" ∧
  ∃ bp,
    "mstar" ∈ dom bp ∧ ("stellar_mass" ∉ dom bp) ∧
    Mock.build (Mock.smhm "mstar") Mock.default_ordinates kwargs Mock.start =
      invoke (EvSubhaloModelFactory bp (Some (Mock.galaxy_selection_func kwargs)))
        (Mock.SubhaloModelFactory bp (Some (Mock.galaxy_selection_func kwargs)))
        {| world := 2%nat;
           calls := [EvBinaryGalpropInterpolModel
                       (Mock.sfr_kw Mock.default_ordinates) kwargs;
                     EvSmhmModel (Mock.smhm "mstar") Mock.smhm_kw kwargs] |} ∧
    Mock.galaxy_selection_func kwargs {["mstar" := PyInt 11]}
      = inl (KeyError "stellar_mass").
Proof.
  intros kwargs.
  assert (Hne : Mock.galprop_name (Mock.sm_component "mstar" kwargs)
                ≠ "stellar_mass") by discriminate.
  split; [reflexivity|]. split; [exact Hne|].
  destruct (mock_thm (@C9_predicate_key_is_fixed)
              (Mock.smhm "mstar") (PyFloat float_0_2) Mock.default_redshift
              Mock.default_abcissa Mock.default_ordinates (PyBool true)
              kwargs Mock.start (Mock.sfr_component kwargs) 1%nat
              (Mock.sm_component "mstar" kwargs) 2%nat (PyInt 10)
              eq_refl eq_refl eq_refl) as (bp & Hrun & _ & _ & Hkey).
  destruct (Hkey Hne) as (Hin & Hraise & Hnot).
  exists bp. split; [exact Hin|]. split; [apply Hnot; discriminate|].
  split; [exact Hrun|]. exact (Hraise (PyInt 11)).
Defined.


(** The designer called with no argument, and with one positional and one
    named argument, on stores it leaves otherwise as they were; and called
    with a named argument [self]. *)
Lemma C10_witness_calls :
  let named : gmap string hod_designer.value :=
    {["central" := hod_designer.Val (PyStr "zheng07")]} in
  let named_self : gmap string hod_designer.value :=
    {["self" := hod_designer.Val (PyInt 1)]} in
  (∃ self, hod_designer.HOD_Model_Designer [] ∅ ∅ = (inr self, <[self := ∅]> ∅)) ∧
  (∃ self,
     ({[0%nat := ∅]} : hod_designer.heap) !! self = None ∧
     hod_designer.HOD_Model_Designer [hod_designer.Val (PyInt 1)] named
       {[0%nat := ∅]}
     = (inr self, <[self := ∅]> {[0%nat := ∅]})) ∧
  hod_designer.HOD_Model_Designer [] named_self ∅
  = (inl (TypeError "__init__() got multiple values for argument 'self'"), ∅).
Proof.
  intros named named_self.
  assert (H0 : (∅ : gmap string hod_designer.value) !! "self" = None)
    by reflexivity.
  assert (H1 : named !! "self" = None) by reflexivity.
  assert (H2 : is_Some (named_self !! "self"))
    by (exists (hod_designer.Val (PyInt 1)); reflexivity).
  split; [|split].
  - destruct (proj1 (C10_designer_accepts_any_arguments [] ∅ ∅) H0)
      as (_ & self & _ & Hrun).
    exists self. exact Hrun.
  - destruct (proj1 (C10_designer_accepts_any_arguments
                       [hod_designer.Val (PyInt 1)] named {[0%nat := ∅]}) H1)
      as (_ & self & Hfresh & Hrun).
    exists self. split; [exact Hfresh|exact Hrun].
  - exact (proj2 (C10_designer_accepts_any_arguments [] named_self ∅) H2).
Defined.

(** [HOD_Model_Designer(self=1)]: a named argument, and the call raises. *)
Lemma C10_counterexample_named_self :
  let named : gmap string hod_designer.value :=
    {["self" := hod_designer.Val (PyInt 1)]} in
  hod_designer.HOD_Model_Designer [] named ∅
  = (inl (TypeError "__init__() got multiple values for argument 'self'"), ∅) ∧
  ∀ self h, hod_designer.HOD_Model_Designer [] named ∅ ≠ (inr self, h).
Proof.
  intros named.
  assert (H : hod_designer.HOD_Model_Designer [] named ∅
              = (inl (TypeError
                        "__init__() got multiple values for argument 'self'"),
                 ∅)) by reflexivity.
  split; [exact H|]. intros self h. rewrite H. discriminate.
Qed.

(** ** Further properties, and their runs on concrete collaborators *)


(** What an instantiation without a named [self] returns. *)
Lemma designer_returns (args : list hod_designer.value)
    (kwargs : gmap string hod_designer.value) (h : hod_designer.heap) :
  kwargs !! "self" = None ->
  hod_designer.HOD_Model_Designer args kwargs h
  = (inr (fresh (dom h)), <[fresh (dom h) := ∅]> h).
Proof.
  intros Hk.
  unfold hod_designer.HOD_Model_Designer, hod_designer.__init__,
    hod_designer.bind_parameters.
  now rewrite Hk.
Qed.

(** X5: apart from a named [self], the designer ignores what it is given:
    every two lists of arguments without one give the same outcome on the
    same store.  Two such instantiations in a row give two distinct
    instances, neither with any attribute, and leave every object that was
    there as it was. *)
Theorem X5_designer_instances_independent
    (args1 args2 : list hod_designer.value)
    (kwargs1 kwargs2 : gmap string hod_designer.value)
    (h : hod_designer.heap) :
  kwargs1 !! "self" = None ->
  kwargs2 !! "self" = None ->
  hod_designer.HOD_Model_Designer args1 kwargs1 h
    = hod_designer.HOD_Model_Designer args2 kwargs2 h ∧
  ∃ self1 h1 self2 h2,
    hod_designer.HOD_Model_Designer args1 kwargs1 h = (inr self1, h1) ∧
    hod_designer.HOD_Model_Designer args2 kwargs2 h1 = (inr self2, h2) ∧
    self1 ≠ self2 ∧
    h2 !! self1 = Some ∅ ∧
    h2 !! self2 = Some ∅ ∧
    dom h2 = {[self1; self2]} ∪ dom h ∧
    (∀ l o, h !! l = Some o -> h2 !! l = Some o).
Proof.
  intros Hk1 Hk2.
  split; [now rewrite !designer_returns|].
  unfold hod_designer.heap in *.
  set (self1 := fresh (dom h)).
  set (h1 := <[self1 := (∅ : gmap string hod_designer.value)]> h).
  set (self2 := fresh (dom h1)).
  assert (H1 : self1 ∉ dom h) by apply is_fresh.
  assert (H2 : self2 ∉ dom h1) by apply is_fresh.
  assert (Hne : self1 ≠ self2).
  { intros Heq. apply H2. rewrite <- Heq. apply elem_of_dom.
    unfold h1. rewrite lookup_insert_eq. eauto. }
  exists self1, h1, self2,
    (<[self2 := (∅ : gmap string hod_designer.value)]> h1).
  split; [exact (designer_returns args1 kwargs1 h Hk1)|].
  split; [exact (designer_returns args2 kwargs2 h1 Hk2)|].
  split; [exact Hne|].
  split; [|split; [|split]].
  - rewrite lookup_insert_ne by done. apply lookup_insert_eq.
  - apply lookup_insert_eq.
  - unfold h1. rewrite !dom_insert_L. set_solver.
  - intros l o Hl.
    assert (Hin : l ∈ dom h) by (apply elem_of_dom; eauto).
    assert (Hin1 : l ∈ dom h1).
    { apply elem_of_dom. unfold h1.
      rewrite lookup_insert_ne by (intros <-; contradiction). eauto. }
    rewrite lookup_insert_ne by (intros <-; contradiction).
    unfold h1. rewrite lookup_insert_ne by (intros <-; contradiction).
    exact Hl.
Qed.

(** Two instantiations with different arguments on the empty store. *)
Lemma X5_witness_two_instances :
  let named : gmap string hod_designer.value :=
    {["central" := hod_designer.Val (PyStr "zheng07")]} in
  (∅ : gmap string hod_designer.value) !! "self" = None ∧
  named !! "self" = None ∧
  hod_designer.HOD_Model_Designer [] ∅ ∅
    = hod_designer.HOD_Model_Designer [hod_designer.Val (PyInt 1)] named ∅ ∧
  ∃ self1 h1 self2 h2,
    hod_designer.HOD_Model_Designer [] ∅ ∅ = (inr self1, h1) ∧
    hod_designer.HOD_Model_Designer [hod_designer.Val (PyInt 1)] named h1
      = (inr self2, h2) ∧
    self1 ≠ self2.
Proof.
  intros named.
  assert (H0 : (∅ : gmap string hod_designer.value) !! "self" = None)
    by reflexivity.
  assert (H1 : named !! "self" = None) by reflexivity.
  split; [exact H0|]. split; [exact H1|].
  destruct (X5_designer_instances_independent
              [] [hod_designer.Val (PyInt 1)] ∅ named ∅ H0 H1)
    as (Hsame & self1 & h1 & self2 & h2 & Hr1 & Hr2 & Hne & _).
  split; [exact Hsame|].
  exists self1, h1, self2, h2. split; [exact Hr1|]. split; [exact Hr2|exact Hne].
Defined.

(** A stellar-mass model that declares "quiescent": one entry, the SFR
    sub-model, and not two. *)
Lemma X2_witness_shared_name :
  let sfr := Mock.sfr_component ∅ in
  let sm := Mock.sm_component "quiescent" ∅ in
  Mock.BinaryGalpropInterpolModel (Mock.sfr_kw Mock.default_ordinates) ∅ 0%nat
    = (inr sfr, 1%nat) ∧
  Mock.smhm "quiescent" Mock.smhm_kw ∅ 1%nat = (inr sm, 2%nat) ∧
  ∃ bp : gmap string Mock.component,
    bp !! "quiescent" = Some sfr ∧ (1 <= size bp <= 2)%nat ∧ size bp ≠ 2%nat.
Proof.
  intros sfr sm. split; [reflexivity|]. split; [reflexivity|].
  destruct (mock_thm (@X2_blueprint_invariant)
              (Mock.smhm "quiescent") (PyFloat float_0_2) Mock.default_redshift
              Mock.default_abcissa Mock.default_ordinates (PyBool true)
              ∅ Mock.start sfr 1%nat sm 2%nat eq_refl eq_refl)
    as (bp & sel & _ & Hsfr & _ & Hsize & Htwo & _).
  exists bp. split; [exact Hsfr|]. split; [exact Hsize|].
  intros H2. apply (proj1 Htwo H2). reflexivity.
Defined.


(** The default call with [threshold=10]: the factory is given a
    predicate, which raises [KeyError] on the empty record and compares a
    stellar mass of 11 with 10. *)
Lemma X3_witness_threshold_ten :
  let kwargs : gmap string pyval := {["threshold" := PyInt 10]} in
  let sfr := Mock.sfr_component kwargs in
  let sm := Mock.sm_component "stellar_mass" kwargs in
  let bp : gmap string Mock.component :=
    <["quiescent" := sfr]> (<["stellar_mass" := sm]> ∅) in
  ∃ sel,
    Mock.SmHmBinarySFR_defaults kwargs Mock.start =
      invoke (EvSubhaloModelFactory bp (Some sel))
        (Mock.SubhaloModelFactory bp (Some sel))
        {| world := 2%nat;
           calls := [EvBinaryGalpropInterpolModel
                       (Mock.sfr_kw Mock.default_ordinates) kwargs;
                     EvSmhmModel Mock.Behroozi10SmHm Mock.smhm_kw kwargs] |} ∧
    sel ∅ = inl (KeyError "stellar_mass") ∧
    sel {["stellar_mass" := PyInt 11]} = inr (PyBool true).
Proof.
  intros kwargs sfr sm bp.
  destruct (mock_thm (@X3_predicate_finds_its_threshold)
              Mock.Behroozi10SmHm (PyFloat float_0_2) Mock.default_redshift
              Mock.default_abcissa Mock.default_ordinates (PyBool true)
              kwargs Mock.start sfr 1%nat sm 2%nat eq_refl eq_refl)
    as (osel & Hrun & Hnone & Hsome).
  destruct osel as [sel|].
  - exists sel. split; [exact Hrun|].
    destruct (Hsome sel eq_refl) as (T & HT & Hsel).
    assert (HT10 : T = PyInt 10).
    { assert (H10 : kwargs !! "threshold" = Some (PyInt 10)) by reflexivity.
      rewrite HT in H10. now injection H10. }
    subst T. split.
    + apply (proj1 (Hsel ∅)). reflexivity.
    + apply (proj2 (Hsel {["stellar_mass" := PyInt 11]}) (PyInt 11)).
      reflexivity.
  - exfalso.
    assert (H10 : kwargs !! "threshold" = Some (PyInt 10)) by reflexivity.
    rewrite (proj1 Hnone eq_refl) in H10. discriminate.
Defined.

(** [threshold=float('nan')]: a record of stellar mass 0.25 is rejected. *)
Lemma X4_witness_nan_threshold :
  let kwargs : gmap string pyval := {["threshold" := PyFloat float_nan]} in
  let x : gmap string pyval := {["stellar_mass" := PyFloat float_0_25]} in
  kwargs !! "threshold" = Some (PyFloat float_nan) ∧
  x !! "stellar_mass" = Some (PyFloat float_0_25) ∧
  Mock.galaxy_selection_func kwargs x = inr (PyBool false).
Proof.
  intros kwargs x. split; [reflexivity|]. split; [reflexivity|].
  exact (proj1 (proj2
           (@X4_predicate_not_finite Mock.gt_other kwargs x
              (PyFloat float_nan) (PyNum.NFloat float_nan)
              (PyFloat float_0_25) (PyNum.NFloat float_0_25)
              eq_refl eq_refl eq_refl eq_refl)) eq_refl).
Defined.
